(** * SQL safety-validation pipeline of the chat backend

    Shallow embedding of [python-react-chat/backend/validators.py]:
    the three validation rules ([ForbiddenKeywordsRule],
    [OnlySelectStatementsRule], [WhitelistedTablesRule]) and the
    [RuleExecutor] that chains them.

    Conventions.
    - A Python [str] is a [string] whose characters are the code points
      below 256; on that range [PyStr.lower] and [PyStr.isspace] are the
      functions CPython computes.
    - The SQL parser ([sqlparse]) is an external library.  Its entry point
      [parse] is a parameter of every definition that calls it; the token
      tree it returns is the inductive type [Token].
    - A Python call either returns a value or raises: type [Result]. *)

From Stdlib Require Import List String Ascii Bool Arith Lia.
Import ListNotations.
Open Scope string_scope.
Open Scope bool_scope.

(* ------------------------------------------------------------------ *)
(** ** Python string primitives *)

Module PyStr.

Local Open Scope nat_scope.

(** [c.isspace()] for a code point below 256. *)
Definition isspace (c : ascii) : bool :=
  let n := nat_of_ascii c in
  ((9 <=? n) && (n <=? 13)) || ((28 <=? n) && (n <=? 32))
  || (n =? 133) || (n =? 160).

(** Lower-casing of one code point below 256: [A-Z], and the Latin-1
    capitals U+00C0..U+00DE except the multiplication sign U+00D7. *)
Definition lower_char (c : ascii) : ascii :=
  let n := nat_of_ascii c in
  if ((65 <=? n) && (n <=? 90))
     || ((192 <=? n) && (n <=? 222) && negb (n =? 215))
  then ascii_of_nat (n + 32) else c.

(** [s.lower()] *)
Fixpoint lower (s : string) : string :=
  match s with
  | EmptyString => EmptyString
  | String c s' => String (lower_char c) (lower s')
  end.

(** [s.lstrip(...)], the characters to drop given as a predicate. *)
Fixpoint lstrip_by (p : ascii -> bool) (s : string) : string :=
  match s with
  | EmptyString => EmptyString
  | String c s' => if p c then lstrip_by p s' else s
  end.

(** [s.rstrip(...)] *)
Fixpoint rstrip_by (p : ascii -> bool) (s : string) : string :=
  match s with
  | EmptyString => EmptyString
  | String c s' =>
      match rstrip_by p s' with
      | EmptyString => if p c then EmptyString else String c EmptyString
      | r => String c r
      end
  end.

Definition strip_by (p : ascii -> bool) (s : string) : string :=
  rstrip_by p (lstrip_by p s).

(** [s.strip()]: leading and trailing white space removed. *)
Definition strip (s : string) : string := strip_by isspace s.

(** [s.strip(ch)] for a one-character argument. *)
Definition strip_char (ch : ascii) (s : string) : string :=
  strip_by (Ascii.eqb ch) s.

(** [s.startswith(p)] *)
Fixpoint startswith (p s : string) : bool :=
  match p, s with
  | EmptyString, _ => true
  | String a p', String b s' => Ascii.eqb a b && startswith p' s'
  | String _ _, EmptyString => false
  end.

(** [needle in hay] on strings: substring containment. *)
Fixpoint contains (needle hay : string) : bool :=
  startswith needle hay
  || match hay with
     | EmptyString => false
     | String _ hay' => contains needle hay'
     end.

(** [x in xs] on a list of strings. *)
Definition mem (x : string) (xs : list string) : bool :=
  existsb (String.eqb x) xs.

(** Declarative reading of containment: [needle] occurs somewhere in
    [hay]. *)
Definition substring_of (needle hay : string) : Prop :=
  exists pre post, hay = pre ++ needle ++ post.

End PyStr.

(* ------------------------------------------------------------------ *)
(** ** Results of Python calls: a value, or a raised [Exception] *)

(** A raised exception is carried by its text [str(e)], which is all the
    rules read of it. *)
Inductive Result (A : Type) : Type :=
| Ok (a : A)
| Raise (e : string).
Arguments Ok {A} a.
Arguments Raise {A} e.

Definition bind {A B} (m : Result A) (k : A -> Result B) : Result B :=
  match m with
  | Ok a => k a
  | Raise e => Raise e
  end.

(** [try: body / except Exception as e: handler(e)] *)
Definition try_except {A} (body : Result A) (handler : string -> Result A)
  : Result A :=
  match body with
  | Ok a => Ok a
  | Raise e => handler e
  end.

Notation "x <- m ;; k" := (bind m (fun x => k))
  (at level 61, m at next level, right associativity).

(** [tuple[bool, str]] returned by every rule. *)
Definition Verdict : Type := bool * string.

(* ------------------------------------------------------------------ *)
(** ** The parser's token tree *)

(** Classes of grouped tokens; [Parenthesis] is the one the table rule
    tests with [isinstance]. *)
Inductive GroupClass : Type :=
| Identifier
| IdentifierList
| Parenthesis
| Function
| Comparison
| Where
| Operation
| OtherGroup.

(** Modelled from the spec: the parser's [Token] (the library is not part
    of the repository).  A token is a leaf carrying its text, its
    [is_keyword] and [is_whitespace] classification and its [normalized]
    text, or a group (a parenthesized group among them) that owns a
    sub-sequence of tokens. *)
#[warnings="-register-all"]
Inductive Token : Type :=
| Leaf (value : string) (keyword whitespace : bool) (norm : string)
| Group (cls : GroupClass) (tokens : list Token).

(** A parsed statement owns an ordered sequence of tokens. *)
Definition Statement : Type := list Token.

(** Modelled from the spec: [Statement.flatten()] recursively expands
    grouped sub-trees into the linear stream, preserving source order. *)
Fixpoint flatten_token (t : Token) : list Token :=
  match t with
  | Leaf _ _ _ _ => [t]
  | Group _ ts => flat_map flatten_token ts
  end.

Definition flatten (st : Statement) : list Token :=
  flat_map flatten_token st.

(** Text of a token: a leaf's own text, a group's leaves joined. *)
Definition leaf_value (t : Token) : string :=
  match t with
  | Leaf v _ _ _ => v
  | Group _ _ => EmptyString
  end.

Definition token_str (t : Token) : string :=
  fold_right (fun l acc => leaf_value l ++ acc) EmptyString (flatten_token t).

(** Modelled from the spec: the attributes a [Token] exposes.  A group is
    neither keyword nor white space and its normalized text is its
    text. *)
Definition is_keyword (t : Token) : bool :=
  match t with
  | Leaf _ k _ _ => k
  | Group _ _ => false
  end.

Definition is_whitespace (t : Token) : bool :=
  match t with
  | Leaf _ _ w _ => w
  | Group _ _ => false
  end.

Definition normalized (t : Token) : string :=
  match t with
  | Leaf _ _ _ n => n
  | Group _ _ => token_str t
  end.

(** [isinstance(t, Parenthesis)] *)
Definition isinstance_Parenthesis (t : Token) : bool :=
  match t with
  | Group Parenthesis _ => true
  | _ => false
  end.

(** Modelled from the spec: [Statement.token_first(skip_ws=True)], the
    first token of the statement that is not white space, if any. *)
Definition token_first (st : Statement) : option Token :=
  find (fun tk => negb (is_whitespace tk)) st.

(* ------------------------------------------------------------------ *)
(** ** The validation rules

    Every rule has one method, [validate(sql_query, db_response=None)].
    No rule reads [db_response] and the executor hands it through
    unchanged, so it is left out of the embedding. *)

Module ForbiddenKeywordsRule.

Definition FORBIDDEN_KEYWORDS : list string :=
  ["insert "; "update "; "delete "; "drop "; "alter "; "truncate ";
   "create "; "exec "; "xp_"].

Definition message : string :=
  "Forbidden SQL keywords detected. Only SELECT queries are allowed.".

Definition validate (sql_query : string) : Result Verdict :=
  let lower_query := PyStr.lower (PyStr.strip sql_query) in
  if existsb (fun keyword => PyStr.contains keyword lower_query)
       FORBIDDEN_KEYWORDS
  then Ok (false, message)
  else Ok (true, EmptyString).

End ForbiddenKeywordsRule.

Module OnlySelectStatementsRule.
Section WithParser.

Variable parse : string -> Result (list Statement).

Definition forbidden_type_message (statement_type : string) : string :=
  "Forbidden statement type '" ++ statement_type
  ++ "' detected. Only SELECT queries are allowed.".

(** [for statement in parsed_statements: ...], then [return True, ''] *)
Fixpoint for_statements (parsed_statements : list Statement)
  : Result Verdict :=
  match parsed_statements with
  | [] => Ok (true, EmptyString)
  | statement :: rest =>
      match token_first statement with
      | None =>
          Ok (false, "Invalid SQL statement structure: Cannot determine statement type.")
      | Some first_token =>
          let statement_type := normalized first_token in
          if negb (statement_type =? "SELECT")
          then Ok (false, forbidden_type_message statement_type)
          else for_statements rest
      end
  end.

Definition validate (sql_query : string) : Result Verdict :=
  try_except
    (parsed_statements <- parse sql_query ;;
     match parsed_statements with
     | [] => Ok (false, "No valid SQL statements found.")
     | _ :: _ => for_statements parsed_statements
     end)
    (fun e =>
       Ok (false, "SQL parsing error during statement type check: " ++ e)).

End WithParser.
End OnlySelectStatementsRule.

Module WhitelistedTablesRule.

(** The rule object: its only attribute is [allowed_tables]. *)
Record t : Type := { allowed_tables : list string }.

(** [__init__]: the allowed names are stored lower-cased. *)
Definition init (allowed : list string) : t :=
  {| allowed_tables := map PyStr.lower allowed |}.

Definition double_quote : ascii := ascii_of_nat 34.
Definition single_quote : ascii := ascii_of_nat 39.
Definition backtick : ascii := ascii_of_nat 96.

(** [token.is_keyword and token.normalized in ('FROM', 'JOIN')] *)
Definition is_from_or_join (token : Token) : bool :=
  is_keyword token && PyStr.mem (normalized token) ["FROM"; "JOIN"].

(** The [while] loop: starting at [current_idx], the first token of
    [flattened_tokens] that is not white space, [None] when the stream
    ends first. *)
Definition scan_candidate (flattened_tokens : list Token)
    (current_idx : nat) : option Token :=
  find (fun next_token => negb (is_whitespace next_token))
       (skipn current_idx flattened_tokens).

(** [tok.normalized] stripped of surrounding double quotes, then of
    single quotes, then of backticks (three successive [strip] calls),
    then lower-cased. *)
Definition table_name_of (tok : Token) : string :=
  PyStr.lower
    (PyStr.strip_char backtick
       (PyStr.strip_char single_quote
          (PyStr.strip_char double_quote (normalized tok)))).

Definition not_allowed_message (table_name : string) : string :=
  "Access to table/object '" ++ table_name ++ "' is not allowed.".

(** [for i, token in enumerate(flattened_tokens): ...]; [pending] is the
    part of the stream from index [i] on.  Running off the end reaches
    the final [return True, '']. *)
Fixpoint for_tokens (self : t) (flattened_tokens : list Token)
    (i : nat) (pending : list Token) : Result Verdict :=
  match pending with
  | [] => Ok (true, EmptyString)
  | token :: pending' =>
      if is_from_or_join token then
        match scan_candidate flattened_tokens (i + 1) with
        | None =>
            Ok (false, "Could not identify table name after FROM/JOIN clause.")
        | Some table_name_candidate_token =>
            if isinstance_Parenthesis table_name_candidate_token
            then for_tokens self flattened_tokens (S i) pending'
            else
              let table_name := table_name_of table_name_candidate_token in
              if negb (PyStr.mem table_name (allowed_tables self))
              then Ok (false, not_allowed_message table_name)
              else for_tokens self flattened_tokens (S i) pending'
        end
      else for_tokens self flattened_tokens (S i) pending'
  end.

Section WithParser.

Variable parse : string -> Result (list Statement).

Definition validate (self : t) (sql_query : string) : Result Verdict :=
  try_except
    (parsed_statements <- parse sql_query ;;
     match parsed_statements with
     | [] => Ok (false, "No valid SQL statements found for table check.")
     | statement :: _ =>
         let flattened_tokens := flatten statement in
         for_tokens self flattened_tokens 0 flattened_tokens
     end)
    (fun e =>
       Ok (false, "SQL parsing error during table whitelist check: " ++ e)).

End WithParser.
End WhitelistedTablesRule.

(* ------------------------------------------------------------------ *)
(** ** The rule executor *)

Module RuleExecutor.
Section WithWorld.

(** Whatever a rule object may read or update besides its argument (a
    call counter, a log); the three rules above leave it alone. *)
Context {World : Type}.

(** [ValidationRule]: an object with a [validate] method.  The method
    returns a verdict or raises, and may update the world. *)
Definition ValidationRule : Type :=
  string -> World -> Result Verdict * World.

(** A rule without effects. *)
Definition pure_rule (v : string -> Result Verdict) : ValidationRule :=
  fun sql_query w => (v sql_query, w).

Fixpoint execute_rules (rules : list ValidationRule) (sql_query : string)
    (w : World) : Result Verdict * World :=
  match rules with
  | [] => (Ok (true, "All rules passed."), w)
  | rule :: rest =>
      match rule sql_query w with
      | (Ok (is_valid, message), w') =>
          if negb is_valid then (Ok (false, message), w')
          else execute_rules rest sql_query w'
      | (Raise e, w') => (Raise e, w')
      end
  end.

(** The rules of this module as rule objects. *)
Inductive BuiltinRule : Type :=
| ForbiddenKeywords
| OnlySelectStatements
| WhitelistedTables (self : WhitelistedTablesRule.t).

Definition builtin (parse : string -> Result (list Statement))
    (r : BuiltinRule) : ValidationRule :=
  pure_rule
    match r with
    | ForbiddenKeywords => ForbiddenKeywordsRule.validate
    | OnlySelectStatements => OnlySelectStatementsRule.validate parse
    | WhitelistedTables self => WhitelistedTablesRule.validate parse self
    end.

End WithWorld.
End RuleExecutor.

(* ------------------------------------------------------------------ *)
(** ** Parse trees of sample queries

    The token trees the parser builds for a few queries, and a
    table-driven stand-in for [parse] that knows exactly these queries.
    They serve to run the rules on concrete inputs. *)

Module Samples.

Definition kw (v n : string) : Token := Leaf v true false n.
Definition ws : Token := Leaf " " false true " ".
Definition name (v : string) : Token := Leaf v false false v.
Definition punct (v : string) : Token := Leaf v false false v.
Definition ident (v : string) : Token := Group Identifier [name v].

Definition sql_secret : string := "SELECT name FROM secret_table".
Definition stmt_secret : Statement :=
  [kw "SELECT" "SELECT"; ws; ident "name"; ws; kw "FROM" "FROM"; ws;
   ident "secret_table"].

Definition sql_subquery : string := "SELECT * FROM (SELECT a FROM t) AS x".
Definition stmt_subquery : Statement :=
  [kw "SELECT" "SELECT"; ws; punct "*"; ws; kw "FROM" "FROM"; ws;
   Group Identifier
     [Group Parenthesis
        [punct "("; kw "SELECT" "SELECT"; ws; ident "a"; ws;
         kw "FROM" "FROM"; ws; ident "t"; punct ")"];
      ws; kw "AS" "AS"; ws; ident "x"]].

Definition sql_one : string := "SELECT 1".
Definition stmt_one : Statement := [kw "SELECT" "SELECT"; ws; punct "1"].

Definition sql_view : string := "select * from client_info_view".
Definition stmt_view : Statement :=
  [kw "select" "SELECT"; ws; punct "*"; ws; kw "from" "FROM"; ws;
   ident "client_info_view"].

Definition sql_two : string := "SELECT 1; SELECT name FROM secret_table".
Definition stmt_one_semi : Statement :=
  [kw "SELECT" "SELECT"; ws; punct "1"; punct ";"; ws].

Definition sql_semi : string := "SELECT 1; ".

Definition sql_update : string := "UPDATE positions SET id = 1".
Definition stmt_update : Statement :=
  [kw "UPDATE" "UPDATE"; ws; ident "positions"; ws; kw "SET" "SET"; ws;
   Group Comparison [ident "id"; ws; punct "="; ws; punct "1"]].

Definition parse (sql : string) : Result (list Statement) :=
  if sql =? sql_secret then Ok [stmt_secret]
  else if sql =? sql_subquery then Ok [stmt_subquery]
  else if sql =? sql_one then Ok [stmt_one]
  else if sql =? sql_view then Ok [stmt_view]
  else if sql =? sql_two then Ok [stmt_one_semi; stmt_secret]
  else if sql =? sql_semi then Ok [stmt_one_semi]
  else if sql =? sql_update then Ok [stmt_update]
  else if sql =? EmptyString then Ok []
  else Raise "sample parser: unknown query".

End Samples.

(* ------------------------------------------------------------------ *)
(** ** Vocabulary of the properties *)

(** A statement whose first token that is not white space exists and has
    normalized text [SELECT]. *)
Definition select_statement (st : Statement) : Prop :=
  exists tok, token_first st = Some tok /\ normalized tok = "SELECT".

(** Position [i] of the stream holds a keyword token whose normalized text
    is [FROM] or [JOIN]. *)
Definition from_join_at (toks : list Token) (i : nat) : Prop :=
  exists tok, nth_error toks i = Some tok
              /\ is_keyword tok = true
              /\ (normalized tok = "FROM" \/ normalized tok = "JOIN").

(** The next token after position [i] that is not white space. *)
Definition candidate_at (toks : list Token) (i : nat) : option Token :=
  find (fun t => negb (is_whitespace t)) (skipn (S i) toks).

(** The target of the FROM/JOIN at position [i] resolves to an allowed
    name. *)
Definition target_allowed (self : WhitelistedTablesRule.t)
    (toks : list Token) (i : nat) : Prop :=
  exists c, candidate_at toks i = Some c
            /\ In (WhitelistedTablesRule.table_name_of c)
                  (WhitelistedTablesRule.allowed_tables self).

(** What iteration [i] of the loop returns, [None] when it falls through
    to the next iteration. *)
Definition body_at (self : WhitelistedTablesRule.t) (toks : list Token)
    (i : nat) : option Verdict :=
  match nth_error toks i with
  | None => None
  | Some token =>
      if WhitelistedTablesRule.is_from_or_join token then
        match WhitelistedTablesRule.scan_candidate toks (i + 1) with
        | None =>
            Some (false,
                  "Could not identify table name after FROM/JOIN clause.")
        | Some c =>
            if isinstance_Parenthesis c then None
            else
              let table_name := WhitelistedTablesRule.table_name_of c in
              if negb (PyStr.mem table_name
                         (WhitelistedTablesRule.allowed_tables self))
              then Some (false,
                         WhitelistedTablesRule.not_allowed_message table_name)
              else None
        end
      else None
  end.

(** Streams in which no token is a [Parenthesis] group: every flattened
    stream is one. *)
Definition leaves_only (toks : list Token) : Prop :=
  forall x, In x toks -> isinstance_Parenthesis x = false.

(** Every rule of the list returns a passing verdict on [sql], the world
    going from [w] to [w'] as they run in order. *)
Fixpoint all_pass {World : Type}
    (rules : list (@RuleExecutor.ValidationRule World)) (sql : string)
    (w w' : World) : Prop :=
  match rules with
  | [] => w' = w
  | rule :: rest =>
      exists m w1, rule sql w = (Ok (true, m), w1) /\ all_pass rest sql w1 w'
  end.

(** A rule object that counts its calls in the world and returns a fixed
    verdict. *)
Definition counting_rule (v : Verdict) : @RuleExecutor.ValidationRule nat :=
  fun _ calls => (Ok v, S calls).

(* ------------------------------------------------------------------ *)
(** ** Further vocabulary *)

From Stdlib Require Import Permutation.

(** [s] consists of white space only. *)
Fixpoint all_space (s : string) : bool :=
  match s with
  | EmptyString => true
  | String c s' => PyStr.isspace c && all_space s'
  end.

(** A string that is empty or starts with a character outside [p]. *)
Definition starts_clean (p : ascii -> bool) (s : string) : Prop :=
  match s with
  | EmptyString => True
  | String c _ => p c = false
  end.

(** The normalized text of each statement's first token that is not white
    space, [None] for a statement without one. *)
Definition statement_heads (sts : list Statement) : list (option string) :=
  map (fun st => option_map normalized (token_first st)) sts.

(** Further sample parses: a FROM keyword with nothing after it, a table
    name in capitals, and a SELECT that writes into a new table. *)
Module MoreSamples.

Definition sql_dangling : string := "SELECT a FROM ".
Definition stmt_dangling : Statement :=
  [Samples.kw "SELECT" "SELECT"; Samples.ws; Samples.ident "a"; Samples.ws;
   Samples.kw "FROM" "FROM"; Samples.ws].

Definition sql_into : string := "SELECT * INTO backup FROM positions".
Definition stmt_into : Statement :=
  [Samples.kw "SELECT" "SELECT"; Samples.ws; Samples.punct "*"; Samples.ws;
   Samples.kw "INTO" "INTO"; Samples.ws; Samples.ident "backup"; Samples.ws;
   Samples.kw "FROM" "FROM"; Samples.ws; Samples.ident "positions"].

Definition parse (sql : string) : Result (list Statement) :=
  if sql =? sql_dangling then Ok [stmt_dangling]
  else if sql =? sql_into then Ok [stmt_into]
  else Samples.parse sql.

End MoreSamples.

(* ------------------------------------------------------------------ *)
(** ** The services around the rules

    [gemini_service.py], [database.py] and the message handler of
    [main.py].  The language-model client, the database driver and the
    socket server are external: the first two are interfaces ([Genai],
    [SqlAlchemy]) whose operations return a value or raise, the third
    appears as the [Emit] effect.  Every function returns, besides its
    result, the list of external calls it made, in order.  Emitting an
    event is taken to succeed, and calls to [print] are left out. *)

(** Exceptions as the handlers tell them apart: a [ValueError], or any
    other [Exception]; both carry their text. *)
Inductive Exn : Type :=
| ValueError (msg : string)
| OtherError (msg : string).

(** [str(e)] *)
Definition exn_str (e : Exn) : string :=
  match e with
  | ValueError msg => msg
  | OtherError msg => msg
  end.

Inductive Outcome (A : Type) : Type :=
| Returns (a : A)
| Raises (e : Exn).
Arguments Returns {A} a.
Arguments Raises {A} e.

Inductive Effect : Type :=
| SendSql (prompt : string)
| SendChat (prompt : string)
| DbConnect
| DbExecute (sql : string)
| DbCommit
| DbRollback
| DbFetch
| Emit (event content room : string).

(** More string operations of Python. *)
Module PySlice.

(** The line feed. *)
Definition nl : string := String (ascii_of_nat 10) EmptyString.

(** [s[n:]] *)
Fixpoint drop (n : nat) (s : string) : string :=
  match n, s with
  | 0, _ => s
  | S n', String _ s' => drop n' s'
  | S _, EmptyString => EmptyString
  end.

(** [s[:n]] *)
Fixpoint take (n : nat) (s : string) : string :=
  match n, s with
  | 0, _ => EmptyString
  | S n', String c s' => String c (take n' s')
  | S _, EmptyString => EmptyString
  end.

(** [s[a:-b]] for [b > 0]: from index [a] up to [b] characters before the
    end, empty when the two bounds cross. *)
Definition slice (a b : nat) (s : string) : string :=
  take (String.length s - b - a) (drop a s).

(** [s.endswith(suffix)] *)
Definition endswith (suffix s : string) : bool :=
  (String.length suffix <=? String.length s)%nat
  && (drop (String.length s - String.length suffix) s =? suffix).

(** [ch * n] *)
Fixpoint repeat_char (ch : ascii) (n : nat) : string :=
  match n with
  | 0 => EmptyString
  | S n' => String ch (repeat_char ch n')
  end.

End PySlice.

Module GeminiService.

(** The part of [google.generativeai] the module uses.  [send_message_async]
    stands for sending the prompt and reading [response.text]. *)
Class Genai : Type := {
  Model : Type;
  Session : Type;
  configure : string -> Outcome unit;
  GenerativeModel : string -> Outcome Model;
  start_chat : Model -> list (string * string) -> Outcome Session;
  send_message_async : Session -> string -> Outcome string
}.

Section WithGenai.

Context {genai : Genai}.

(** The module's global variables. *)
Record Globals : Type := {
  _gemini_model : option Model;
  _gemini_chat_sql_session : option Session;
  _gemini_chat_general_session : option Session
}.

(** The module as loaded: nothing initialized. *)
Definition unloaded : Globals :=
  {| _gemini_model := None;
     _gemini_chat_sql_session := None;
     _gemini_chat_general_session := None |}.

Definition sql_history : list (string * string) :=
  [("user",
    "You are a SQL expert for a MS SQL Server database. Convert natural language to SQL queries. Only use tables and columns explicitly mentioned in the provided schema. Do not make up names. Ensure correct SQL Server syntax. When given a schema, acknowledge it. When asked a question, provide *only* the SQL query.");
   ("model",
    "Acknowledged. I will provide SQL queries as requested. Please provide the database schema when ready.")].

Definition general_history : list (string * string) :=
  [("user",
    "You are a helpful AI assistant. Answer general questions concisely and clearly.");
   ("model", "I understand. How can I help you today?")].

(** [not api_key] for an optional string. *)
Definition falsy (api_key : option string) : bool :=
  match api_key with
  | None => true
  | Some EmptyString => true
  | Some _ => false
  end.

(** The [try] block of [initialize_gemini_model]. *)
Definition build_sessions (api_key : string)
  : Outcome (Model * Session * Session) :=
  match configure api_key with
  | Raises e => Raises e
  | Returns _ =>
      match GenerativeModel "models/gemini-1.5-flash" with
      | Raises e => Raises e
      | Returns model =>
          match start_chat model sql_history with
          | Raises e => Raises e
          | Returns sql_session =>
              match start_chat model general_history with
              | Raises e => Raises e
              | Returns general_session =>
                  Returns (model, sql_session, general_session)
              end
          end
      end
  end.

(** [initialize_gemini_model(api_key)]: the returned flag and the globals
    afterwards.  Whatever the [try] block assigned before raising is reset
    by its handler. *)
Definition initialize_gemini_model (g : Globals) (api_key : option string)
  : bool * Globals :=
  match _gemini_model g with
  | Some _ => (true, g)
  | None =>
      if falsy api_key then
        (false,
         {| _gemini_model := None;
            _gemini_chat_sql_session := _gemini_chat_sql_session g;
            _gemini_chat_general_session := _gemini_chat_general_session g |})
      else
        match build_sessions
                match api_key with Some k => k | None => EmptyString end
        with
        | Returns (model, sql_session, general_session) =>
            (true,
             {| _gemini_model := Some model;
                _gemini_chat_sql_session := Some sql_session;
                _gemini_chat_general_session := Some general_session |})
        | Raises _ => (false, unloaded)
        end
  end.

(** The clean-up of markdown fences, applied to the trimmed reply. *)
Definition clean_markdown (sql_query : string) : string :=
  if PyStr.startswith "```sql" (PyStr.lower sql_query)
     && PySlice.endswith "```" (PyStr.lower sql_query)
  then PyStr.strip (PySlice.slice 6 3 sql_query)
  else if PyStr.startswith "```" (PyStr.lower sql_query)
          && PySlice.endswith "```" (PyStr.lower sql_query)
       then PyStr.strip (PySlice.slice 3 3 sql_query)
       else sql_query.

Definition prompt_for_sql_generation (user_question db_schema : string)
  : string :=
  PySlice.nl ++ "    Database schema:" ++ PySlice.nl
  ++ "    " ++ db_schema ++ PySlice.nl
  ++ PySlice.nl
  ++ "    User's question: " ++ user_question ++ PySlice.nl
  ++ PySlice.nl
  ++ "    SQL Query:" ++ PySlice.nl
  ++ "    ".

Definition get_gemini_sql_response (g : Globals)
    (user_question db_schema : string) : Outcome string * list Effect :=
  match _gemini_chat_sql_session g with
  | None =>
      (Raises
         (ValueError
            "Gemini SQL chat session not available. Ensure model was initialized."),
       [])
  | Some session =>
      let prompt := prompt_for_sql_generation user_question db_schema in
      match send_message_async session prompt with
      | Returns text =>
          (Returns (clean_markdown (PyStr.strip text)), [SendSql prompt])
      | Raises e =>
          (Raises
             (ValueError
                ("Could not generate SQL query: " ++ exn_str e
                 ++ ". Please try rephrasing your question or check Gemini API setup.")),
           [SendSql prompt])
      end
  end.

Definition get_gemini_chat_response (g : Globals) (user_message : string)
  : string * list Effect :=
  match _gemini_chat_general_session g with
  | None =>
      ("Sorry, Gemini model is not available for chat. Ensure it was initialized.",
       [])
  | Some session =>
      match send_message_async session user_message with
      | Returns text => (PyStr.strip text, [SendChat user_message])
      | Raises _ =>
          ("Sorry, I'm having trouble processing that right now. Please try again later.",
           [SendChat user_message])
      end
  end.

End WithGenai.
End GeminiService.

Module Database.

(** The part of SQLAlchemy the module uses.  A result's [rowcount] is
    given by its text, a row's cells by [str_cell]. *)
Class SqlAlchemy : Type := {
  Engine : Type;
  Connection : Type;
  CursorResult : Type;
  Cell : Type;
  connect : Engine -> Outcome Connection;
  execute : Connection -> string -> Outcome CursorResult;
  commit : Connection -> Outcome unit;
  rollback : Connection -> Outcome unit;
  rowcount : CursorResult -> string;
  keys : CursorResult -> Outcome (list string);
  fetchall : CursorResult -> Outcome (list (list Cell));
  str_cell : Cell -> string
}.

Section WithSqlAlchemy.

Context {sqlalchemy : SqlAlchemy}.

(** The dictionary [execute_sql_query] returns: each of its three keys
    present or absent. *)
Record DbResults : Type := {
  message : option string;
  columns : option (list string);
  rows : option (list (list Cell))
}.

(** [sql_query.strip().lower().startswith("select")] *)
Definition starts_with_select (sql_query : string) : bool :=
  PyStr.startswith "select" (PyStr.lower (PyStr.strip sql_query)).

(** The [try] block of [execute_sql_query]. *)
Definition run_query (connection : Connection) (sql_query : string)
  : Outcome DbResults * list Effect :=
  match execute connection sql_query with
  | Raises e => (Raises e, [DbExecute sql_query])
  | Returns result =>
      if negb (starts_with_select sql_query) then
        match commit connection with
        | Raises e => (Raises e, [DbExecute sql_query; DbCommit])
        | Returns _ =>
            (Returns
               {| message :=
                    Some ("Query executed successfully. Rows affected: "
                          ++ rowcount result);
                  columns := None;
                  rows := None |},
             [DbExecute sql_query; DbCommit])
        end
      else
        match keys result with
        | Raises e => (Raises e, [DbExecute sql_query; DbFetch])
        | Returns cols =>
            match fetchall result with
            | Raises e => (Raises e, [DbExecute sql_query; DbFetch])
            | Returns fetched =>
                (Returns
                   {| message := None;
                      columns := Some cols;
                      rows := Some fetched |},
                 [DbExecute sql_query; DbFetch])
            end
        end
  end.

Definition database_error (e : Exn) (sql_query : string) : Exn :=
  ValueError
    ("Database error executing query: " ++ exn_str e
     ++ ". Query was: '" ++ sql_query ++ "'").

(** [execute_sql_query(sql_query)] for a given value of the global
    [engine]. *)
Definition execute_sql_query (engine : option Engine) (sql_query : string)
  : Outcome DbResults * list Effect :=
  match engine with
  | None =>
      (Raises
         (ValueError
            "Database connection not established. Cannot execute query."),
       [])
  | Some eng =>
      match connect eng with
      | Raises e => (Raises e, [DbConnect])
      | Returns connection =>
          match run_query connection sql_query with
          | (Returns results, trace) => (Returns results, DbConnect :: trace)
          | (Raises e, trace) =>
              if negb (starts_with_select sql_query) then
                match rollback connection with
                | Raises e' =>
                    (Raises e', ((DbConnect :: trace) ++ [DbRollback])%list)
                | Returns _ =>
                    (Raises (database_error e sql_query),
                     ((DbConnect :: trace) ++ [DbRollback])%list)
                end
              else (Raises (database_error e sql_query), DbConnect :: trace)
          end
      end
  end.

End WithSqlAlchemy.
End Database.

Module Main.
Section WithServices.

Context {genai : GeminiService.Genai} {sqlalchemy : Database.SqlAlchemy}.

(** What the handler reads of its surroundings: the parser behind the
    rules, the database module's [engine] and [DB_SCHEMA_DESCRIPTION], and
    the globals of the language-model module. *)
Record Env : Type := {
  parse : string -> Result (list Statement);
  engine : option Database.Engine;
  DB_SCHEMA_DESCRIPTION : string;
  gemini : GeminiService.Globals
}.

(** The rule list the handler builds. *)
Definition rules : list RuleExecutor.BuiltinRule :=
  [RuleExecutor.ForbiddenKeywords;
   RuleExecutor.OnlySelectStatements;
   RuleExecutor.WhitelistedTables
     (WhitelistedTablesRule.init
        ["client_academic_data"; "client_info_view"; "client_positions";
         "positions"])].

(** The text of the [sql_result] event. *)
Definition format_results (generated_sql : string)
    (db_results : Database.DbResults) : string :=
  match Database.columns db_results, Database.rows db_results with
  | Some cols, Some fetched =>
      let response_content :=
        "SQL Query: `" ++ generated_sql ++ "`" ++ PySlice.nl ++ PySlice.nl
        ++ "Results:" ++ PySlice.nl in
      match fetched with
      | [] => response_content ++ "No rows returned."
      | _ :: _ =>
          let headers := String.concat " | " cols in
          let rows_str :=
            String.concat PySlice.nl
              (map (fun row =>
                      String.concat " | " (map Database.str_cell row))
                 fetched) in
          response_content
          ++ "```" ++ PySlice.nl ++ headers ++ PySlice.nl
          ++ PySlice.repeat_char "-" (String.length headers) ++ PySlice.nl
          ++ rows_str ++ PySlice.nl ++ "```"
      end
  | _, _ =>
      "SQL Query: `" ++ generated_sql ++ "`" ++ PySlice.nl ++ PySlice.nl
      ++ "Message: "
      ++ match Database.message db_results with
         | Some m => m
         | None => "Query executed, no specific result data."
         end
  end.

(** The two [except] clauses of the SQL branch. *)
Definition on_exception (sid : string) (e : Exn) : list Effect :=
  match e with
  | ValueError ve => [Emit "error" ("Error: " ++ ve) sid]
  | OtherError m =>
      [Emit "error"
         ("An unexpected error occurred during SQL processing: " ++ m) sid]
  end.

(** The [try] block of the SQL branch. *)
Definition sql_branch (env : Env) (sid user_question : string)
  : list Effect :=
  match GeminiService.get_gemini_sql_response (gemini env) user_question
          (DB_SCHEMA_DESCRIPTION env) with
  | (Raises e, asked) => (asked ++ on_exception sid e)%list
  | (Returns generated_sql, asked) =>
      match fst (RuleExecutor.execute_rules
                   (map (RuleExecutor.builtin (parse env)) rules)
                   generated_sql tt) with
      | Raise e => (asked ++ on_exception sid (OtherError e))%list
      | Ok (is_valid, message) =>
          if negb is_valid then
            (asked
             ++ [Emit "error"
                   ("Dangerous SQL. Cannot execute SQL." ++ message) sid])%list
          else
            match Database.execute_sql_query (engine env) generated_sql with
            | (Raises e, ran) => (asked ++ ran ++ on_exception sid e)%list
            | (Returns db_results, ran) =>
                (asked ++ ran
                 ++ [Emit "sql_result"
                       (format_results generated_sql db_results) sid])%list
            end
      end
  end.

(** The two chat branches: the reply goes out as [chat] unless it holds
    the not-available phrase. *)
Definition chat_branch (env : Env) (sid prompt : string) : list Effect :=
  match GeminiService.get_gemini_chat_response (gemini env) prompt with
  | (gemini_response_text, asked) =>
      if PyStr.contains "Sorry, Gemini model is not available"
           gemini_response_text
      then (asked ++ [Emit "error" gemini_response_text sid])%list
      else (asked ++ [Emit "chat" ("AI: " ++ gemini_response_text) sid])%list
  end.

(** [handle_client_message(sid, message)] *)
Definition handle_client_message (env : Env) (sid message : string)
  : list Effect :=
  let user_message_lower := PyStr.strip (PyStr.lower message) in
  if PyStr.startswith "/sql" user_message_lower then
    let user_question := PyStr.strip (PySlice.drop 4 message) in
    match engine env with
    | None =>
        [Emit "error" "Database not connected. Cannot execute SQL." sid]
    | Some _ => sql_branch env sid user_question
    end
  else if PyStr.startswith "/ai" user_message_lower then
    let ai_prompt := PyStr.strip (PySlice.drop 3 message) in
    chat_branch env sid ai_prompt
  else chat_branch env sid message.

End WithServices.
End Main.

(** Stand-ins for the external services, to run the functions on concrete
    inputs: a language model that answers every prompt by [reply], and a
    database that runs every statement and returns one row. *)
Module ServiceSamples.

Definition genai (reply : string -> Outcome string) : GeminiService.Genai :=
  {| GeminiService.Model := unit;
     GeminiService.Session := unit;
     GeminiService.configure := fun _ => Returns tt;
     GeminiService.GenerativeModel := fun _ => Returns tt;
     GeminiService.start_chat := fun _ _ => Returns tt;
     GeminiService.send_message_async := fun _ prompt => reply prompt |}.

(** The globals after a successful initialization. *)
Definition loaded (reply : string -> Outcome string)
  : @GeminiService.Globals (genai reply) :=
  @GeminiService.Build_Globals (genai reply) (Some tt) (Some tt) (Some tt).

Definition sqlalchemy (run : string -> Outcome unit) : Database.SqlAlchemy :=
  {| Database.Engine := unit;
     Database.Connection := unit;
     Database.CursorResult := unit;
     Database.Cell := string;
     Database.connect := fun _ => Returns tt;
     Database.execute := fun _ sql => run sql;
     Database.commit := fun _ => Returns tt;
     Database.rollback := fun _ => Returns tt;
     Database.rowcount := fun _ => "1";
     Database.keys := fun _ => Returns ["id"; "name"];
     Database.fetchall := fun _ => Returns [["1"; "goalkeeper"]];
     Database.str_cell := fun cell => cell |}.

Definition schema : string := "Table: client_info_view (client_id INT)".

(** The handler's surroundings with both services up. *)
Definition env (reply : string -> Outcome string)
    (run : string -> Outcome unit)
  : @Main.Env (genai reply) (sqlalchemy run) :=
  @Main.Build_Env (genai reply) (sqlalchemy run)
    Samples.parse (Some tt) schema (loaded reply).

End ServiceSamples.

(** The globals are all unset or all set. *)
Definition coherent {genai : GeminiService.Genai}
    (g : GeminiService.Globals) : Prop :=
  (GeminiService._gemini_model g = None
   /\ GeminiService._gemini_chat_sql_session g = None
   /\ GeminiService._gemini_chat_general_session g = None)
  \/ (GeminiService._gemini_model g <> None
      /\ GeminiService._gemini_chat_sql_session g <> None
      /\ GeminiService._gemini_chat_general_session g <> None).

(** The effects that touch the database. *)
Definition is_db_effect (eff : Effect) : bool :=
  match eff with
  | DbConnect | DbExecute _ | DbCommit | DbRollback | DbFetch => true
  | _ => false
  end.

Definition is_emit (eff : Effect) : bool :=
  match eff with
  | Emit _ _ _ => true
  | _ => false
  end.

(* ------------------------------------------------------------------ *)
(** ** The name the table rule compares *)

(** The three quote delimiters: double quote, single quote, backtick. *)
Definition is_delimiter (c : ascii) : bool :=
  Ascii.eqb c (ascii_of_nat 34) || Ascii.eqb c "'" || Ascii.eqb c "`".

(** No delimiter occurs in [s]. *)
Fixpoint delimiter_free (s : string) : bool :=
  match s with
  | EmptyString => true
  | String c s' => negb (is_delimiter c) && delimiter_free s'
  end.

(** No character of [s] satisfies [p]. *)
Fixpoint free_of (p : ascii -> bool) (s : string) : bool :=
  match s with
  | EmptyString => true
  | String c s' => negb (p c) && free_of p s'
  end.

(** [s] between two copies of the character [q]. *)
Definition quoted (q : ascii) (s : string) : string :=
  String q (s ++ String q EmptyString).

(** [text] without the double quotes around it, then without the single
    quotes, then without the backticks, in lower case. *)
Definition unquoted_lower (text : string) : string :=
  PyStr.lower
    (PyStr.strip_by (Ascii.eqb "`")
       (PyStr.strip_by (Ascii.eqb "'")
          (PyStr.strip_by (Ascii.eqb (ascii_of_nat 34)) text))).

(** The FROM/JOIN keyword at position [i] has a target, and the
    target's normalized text, unquoted and lower-cased, is one of the
    lower-cased [allowed] names. *)
Definition target_resolves (allowed : list string) (toks : list Token)
    (i : nat) : Prop :=
  exists c, candidate_at toks i = Some c
            /\ In (unquoted_lower (normalized c)) (map PyStr.lower allowed).

(** Sample parses with quoted names in capitals. *)
Module QuotedSamples.

Definition symbol (text : string) : Token :=
  Group Identifier [Leaf text false false text].

Definition sql_quoted : string :=
  "SELECT name FROM " ++ quoted (ascii_of_nat 34) "Secret_Table".
Definition stmt_quoted : Statement :=
  [Samples.kw "SELECT" "SELECT"; Samples.ws; Samples.ident "name";
   Samples.ws; Samples.kw "FROM" "FROM"; Samples.ws;
   symbol (quoted (ascii_of_nat 34) "Secret_Table")].

Definition sql_backticked : string :=
  "select * from " ++ quoted "`" "Client_Info_View".
Definition stmt_backticked : Statement :=
  [Samples.kw "select" "SELECT"; Samples.ws; Samples.punct "*";
   Samples.ws; Samples.kw "from" "FROM"; Samples.ws;
   symbol (quoted "`" "Client_Info_View")].

Definition parse (sql : string) : Result (list Statement) :=
  if sql =? sql_quoted then Ok [stmt_quoted]
  else if sql =? sql_backticked then Ok [stmt_backticked]
  else Samples.parse sql.

End QuotedSamples.

(* ------------------------------------------------------------------ *)
(** * Properties *)

(** ** Strings *)

Module PyStrFacts.
Import PyStr.

Lemma startswith_spec p s :
  startswith p s = true <-> exists post, s = p ++ post.
Proof.
  revert s; induction p as [|a p IH]; intros s; simpl.
  - split; [intros _; now exists s | trivial].
  - destruct s as [|b s].
    + split; [discriminate | intros [post H]; discriminate].
    + rewrite andb_true_iff, Ascii.eqb_eq, IH. split.
      * intros [-> [post ->]]. now exists post.
      * intros [post H]. injection H as -> ->. split; [reflexivity | now exists post].
Qed.

Lemma contains_spec needle hay :
  contains needle hay = true <-> substring_of needle hay.
Proof.
  unfold substring_of. induction hay as [|c hay IH].
  - simpl. rewrite orb_false_r, startswith_spec. split.
    + intros [post H]. now exists "", post.
    + intros [[|a pre] [post H]].
      * now exists post.
      * discriminate.
  - cbn [contains]. rewrite orb_true_iff, startswith_spec, IH. split.
    + intros [[post H] | [pre [post H]]].
      * now exists "", post.
      * exists (String c pre), post. simpl. now rewrite H.
    + intros [[|a pre] [post H]].
      * left. now exists post.
      * right. simpl in H. injection H as _ H. now exists pre, post.
Qed.

Lemma mem_spec x xs : mem x xs = true <-> In x xs.
Proof.
  unfold mem. rewrite existsb_exists. split.
  - intros [y [Hy E]]. apply String.eqb_eq in E. now subst.
  - intros H. exists x. split; [assumption | apply String.eqb_refl].
Qed.

Lemma existsb_contains_spec (keywords : list string) (hay : string) :
  existsb (fun keyword => contains keyword hay) keywords = true
  <-> exists k, In k keywords /\ substring_of k hay.
Proof.
  rewrite existsb_exists. split; intros [k [Hin Hk]]; exists k;
    (split; [exact Hin | now apply contains_spec]).
Qed.

End PyStrFacts.

(** ** ForbiddenKeywordsRule *)

(** C1. [ForbiddenKeywordsRule.validate s] fails with the fixed message
    exactly when the trimmed, lower-cased [s] contains one of the nine
    forbidden substrings anywhere, and returns [(True, '')] exactly when it
    contains none.  ["DROP TABLE client"] fails with that message, and
    ['create '] does not occur in ['created_at'], so a query that only
    mentions the column [created_at] passes. *)
Theorem forbidden_keywords_validate_spec :
  (forall s : string,
      let hit :=
        exists k,
          In k ["insert "; "update "; "delete "; "drop "; "alter ";
                "truncate "; "create "; "exec "; "xp_"]
          /\ PyStr.substring_of k (PyStr.lower (PyStr.strip s)) in
      (ForbiddenKeywordsRule.validate s
       = Ok (false,
             "Forbidden SQL keywords detected. Only SELECT queries are allowed.")
       <-> hit)
      /\ (ForbiddenKeywordsRule.validate s = Ok (true, EmptyString)
          <-> ~ hit))
  /\ ForbiddenKeywordsRule.validate "DROP TABLE client"
     = Ok (false,
           "Forbidden SQL keywords detected. Only SELECT queries are allowed.")
  /\ ~ PyStr.substring_of "create " "created_at"
  /\ ForbiddenKeywordsRule.validate "SELECT created_at FROM client_info_view"
     = Ok (true, EmptyString).
Proof.
  split; [| split; [reflexivity | split; [| reflexivity]]].
  - intros s hit.
    pose proof (PyStrFacts.existsb_contains_spec
                  ForbiddenKeywordsRule.FORBIDDEN_KEYWORDS
                  (PyStr.lower (PyStr.strip s))) as Hspec.
    change (exists k, In k ForbiddenKeywordsRule.FORBIDDEN_KEYWORDS
                      /\ PyStr.substring_of k (PyStr.lower (PyStr.strip s)))
      with hit in Hspec.
    unfold ForbiddenKeywordsRule.validate.
    destruct (existsb _ ForbiddenKeywordsRule.FORBIDDEN_KEYWORDS) eqn:E.
    + assert (Hhit : hit) by now apply Hspec.
      split; split.
      * intros _; exact Hhit.
      * reflexivity.
      * intros H; inversion H.
      * intros Hn. now destruct Hn.
    + assert (Hn : ~ hit) by (intros H; apply Hspec in H; discriminate).
      split; split.
      * intros H; inversion H.
      * intros H. now destruct Hn.
      * intros _; exact Hn.
      * reflexivity.
  - intros H. apply PyStrFacts.contains_spec in H. vm_compute in H.
    discriminate.
Qed.

(** C9. A forbidden keyword that ends the input is not detected:
    ["SELECT 1; drop"] and the bare word ["delete"] both pass, and so does
    every pattern stored with a trailing space when it is written without
    it at the end of the input, also when white space follows it there
    (trimming removes it before the scan). *)
Theorem forbidden_keyword_at_end_passes :
  ForbiddenKeywordsRule.validate "SELECT 1; drop" = Ok (true, EmptyString)
  /\ ForbiddenKeywordsRule.validate "delete" = Ok (true, EmptyString)
  /\ Forall
       (fun k =>
          In (k ++ " ") ForbiddenKeywordsRule.FORBIDDEN_KEYWORDS
          /\ ForbiddenKeywordsRule.validate k = Ok (true, EmptyString)
          /\ ForbiddenKeywordsRule.validate ("SELECT 1; " ++ k)
             = Ok (true, EmptyString)
          /\ ForbiddenKeywordsRule.validate ("SELECT 1; " ++ k ++ "  ")
             = Ok (true, EmptyString))
       ["insert"; "update"; "delete"; "drop"; "alter"; "truncate";
        "create"; "exec"].
Proof.
  split; [reflexivity | split; [reflexivity |]].
  repeat (apply Forall_cons; [vm_compute; intuition congruence |]).
  apply Forall_nil.
Qed.

(** ** OnlySelectStatementsRule *)

Section OnlySelectFacts.

Variable parse : string -> Result (list Statement).

Lemma select_statement_step (st : Statement) (rest : list Statement) :
  select_statement st ->
  OnlySelectStatementsRule.for_statements (st :: rest)
  = OnlySelectStatementsRule.for_statements rest.
Proof.
  intros [tok [Hf Hn]]. simpl. rewrite Hf, Hn. reflexivity.
Qed.

Lemma for_statements_prefix (pre post : list Statement) :
  Forall select_statement pre ->
  OnlySelectStatementsRule.for_statements (pre ++ post)%list
  = OnlySelectStatementsRule.for_statements post.
Proof.
  induction 1 as [|st pre Hst _ IH]; [reflexivity |].
  rewrite <- app_comm_cons, select_statement_step by assumption. exact IH.
Qed.

Lemma for_statements_pass_iff (sts : list Statement) :
  OnlySelectStatementsRule.for_statements sts = Ok (true, EmptyString)
  <-> Forall select_statement sts.
Proof.
  induction sts as [|st sts IH]; simpl.
  - split; [constructor | reflexivity].
  - destruct (token_first st) as [tok|] eqn:Hf.
    + destruct (normalized tok =? "SELECT") eqn:Hn; simpl.
      * apply String.eqb_eq in Hn. rewrite IH. split.
        -- intros H. constructor; [now exists tok | exact H].
        -- intros H. now inversion H.
      * apply String.eqb_neq in Hn. split; [discriminate |].
        intros H. inversion H as [|? ? [tok' [Hf' Hn']] _]; subst.
        congruence.
    + split; [discriminate |].
      intros H. inversion H as [|? ? [tok' [Hf' _]] _]; subst. congruence.
Qed.

Lemma for_statements_never_raises (sts : list Statement) :
  exists v, OnlySelectStatementsRule.for_statements sts = Ok v.
Proof.
  induction sts as [|st sts IH]; simpl; [eauto |].
  destruct (token_first st) as [tok|]; [| eauto].
  destruct (negb _); eauto.
Qed.

Lemma only_select_validate_ok (sql : string) (sts : list Statement) :
  parse sql = Ok sts ->
  OnlySelectStatementsRule.validate parse sql
  = match sts with
    | [] => Ok (false, "No valid SQL statements found.")
    | _ :: _ => OnlySelectStatementsRule.for_statements sts
    end.
Proof.
  intros H. unfold OnlySelectStatementsRule.validate. rewrite H. simpl.
  destruct sts as [|st sts]; [reflexivity |].
  destruct (for_statements_never_raises (st :: sts)) as [v Hv].
  now rewrite Hv.
Qed.

Lemma only_select_validate_raise (sql e : string) :
  parse sql = Raise e ->
  OnlySelectStatementsRule.validate parse sql
  = Ok (false, "SQL parsing error during statement type check: " ++ e).
Proof.
  intros H. unfold OnlySelectStatementsRule.validate. now rewrite H.
Qed.

End OnlySelectFacts.

(** C2. [OnlySelectStatementsRule.validate] returns [(True, '')] exactly
    when the parser yields at least one statement and every statement's
    first token that is not white space exists and has normalized text
    [SELECT].  It fails when the parser yields no statement, when the first
    statement that is not such a SELECT has no such token, and when that
    token's normalized text differs from [SELECT]; the message then quotes
    that text. *)
Theorem only_select_validate_spec
    (parse : string -> Result (list Statement)) (sql : string) :
  (OnlySelectStatementsRule.validate parse sql = Ok (true, EmptyString)
   <-> exists sts, parse sql = Ok sts /\ sts <> []
                   /\ Forall select_statement sts)
  /\ (parse sql = Ok [] ->
      OnlySelectStatementsRule.validate parse sql
      = Ok (false, "No valid SQL statements found."))
  /\ (forall pre st post,
         parse sql = Ok (pre ++ st :: post)%list ->
         Forall select_statement pre ->
         token_first st = None ->
         OnlySelectStatementsRule.validate parse sql
         = Ok (false,
               "Invalid SQL statement structure: Cannot determine statement type."))
  /\ (forall pre st post tok,
         parse sql = Ok (pre ++ st :: post)%list ->
         Forall select_statement pre ->
         token_first st = Some tok ->
         normalized tok <> "SELECT" ->
         OnlySelectStatementsRule.validate parse sql
         = Ok (false,
               "Forbidden statement type '" ++ normalized tok
               ++ "' detected. Only SELECT queries are allowed."))
  /\ (forall sts,
         parse sql = Ok sts ->
         ~ Forall select_statement sts ->
         exists msg,
           OnlySelectStatementsRule.validate parse sql = Ok (false, msg)).
Proof.
  repeat split.
  - intros H. destruct (parse sql) as [sts|e] eqn:Hp.
    + rewrite (only_select_validate_ok parse sql sts Hp) in H.
      destruct sts as [|st sts]; [discriminate |].
      exists (st :: sts). split; [reflexivity | split; [discriminate |]].
      now apply for_statements_pass_iff.
    + rewrite (only_select_validate_raise parse sql e Hp) in H. discriminate.
  - intros [sts [Hp [Hne Hall]]].
    rewrite (only_select_validate_ok parse sql sts Hp).
    destruct sts as [|st sts]; [congruence |].
    now apply for_statements_pass_iff.
  - intros Hp. now rewrite (only_select_validate_ok parse sql [] Hp).
  - intros pre st post Hp Hpre Hf.
    rewrite (only_select_validate_ok parse sql _ Hp).
    transitivity (OnlySelectStatementsRule.for_statements (pre ++ st :: post)%list).
    { destruct pre; reflexivity. }
    rewrite for_statements_prefix by assumption. simpl. now rewrite Hf.
  - intros pre st post tok Hp Hpre Hf Hn.
    rewrite (only_select_validate_ok parse sql _ Hp).
    transitivity (OnlySelectStatementsRule.for_statements (pre ++ st :: post)%list).
    { destruct pre; reflexivity. }
    rewrite for_statements_prefix by assumption. simpl. rewrite Hf.
    apply String.eqb_neq in Hn. now rewrite Hn.
  - intros sts Hp Hnot.
    rewrite (only_select_validate_ok parse sql sts Hp).
    destruct sts as [|st sts]; [eauto |].
    destruct (for_statements_never_raises (st :: sts)) as [[b m] Hv].
    rewrite Hv. destruct b; [| eauto].
    exfalso. apply Hnot. apply for_statements_pass_iff.
    (* a passing verdict of the loop always carries the empty message *)
    clear - Hv. revert Hv. generalize (st :: sts) as l.
    induction l as [|s l IH]; simpl.
    + intros H. injection H as <-. reflexivity.
    + destruct (token_first s) as [tok|]; [| discriminate].
      destruct (negb _); [discriminate | exact IH].
Qed.

(** The statement-type rule on sample queries: an [UPDATE] is refused with
    its type quoted, and a SELECT followed by a second SELECT passes. *)
Lemma only_select_validate_spec_witness :
  OnlySelectStatementsRule.validate Samples.parse Samples.sql_update
  = Ok (false,
        "Forbidden statement type 'UPDATE' detected. Only SELECT queries are allowed.")
  /\ OnlySelectStatementsRule.validate Samples.parse Samples.sql_two
     = Ok (true, EmptyString).
Proof.
  split.
  - refine (proj1 (proj2 (proj2 (proj2
             (only_select_validate_spec Samples.parse Samples.sql_update))))
             [] Samples.stmt_update [] (Samples.kw "UPDATE" "UPDATE")
             _ _ _ _).
    + reflexivity.
    + constructor.
    + reflexivity.
    + discriminate.
  - apply (proj1 (only_select_validate_spec Samples.parse Samples.sql_two)).
    exists [Samples.stmt_one_semi; Samples.stmt_secret].
    split; [reflexivity | split; [discriminate |]].
    repeat constructor; eexists; split; reflexivity.
Defined.

(** ** The flattened token stream *)

Lemma flatten_token_leaves (t x : Token) :
  In x (flatten_token t) -> exists v k w n, x = Leaf v k w n.
Proof.
  revert t x. fix IH 1. intros [v k w n | cls ts] x H.
  - destruct H as [<- | []]. eauto.
  - simpl in H. induction ts as [|t ts IHts]; simpl in H; [contradiction |].
    apply in_app_or in H. destruct H as [H | H].
    + exact (IH t x H).
    + exact (IHts H).
Qed.

Lemma flatten_leaves (st : Statement) (x : Token) :
  In x (flatten st) -> exists v k w n, x = Leaf v k w n.
Proof.
  unfold flatten. intros H. apply in_flat_map in H.
  destruct H as [t [_ H]]. exact (flatten_token_leaves t x H).
Qed.

Lemma flatten_no_parenthesis (st : Statement) (x : Token) :
  In x (flatten st) -> isinstance_Parenthesis x = false.
Proof.
  intros H. destruct (flatten_leaves st x H) as (v & k & w & n & ->).
  reflexivity.
Qed.

Lemma skipn_cons_inv {A} (l : list A) :
  forall i x rest,
    skipn i l = x :: rest -> nth_error l i = Some x /\ skipn (S i) l = rest.
Proof.
  induction l as [|a l IH]; intros i x rest H.
  - destruct i; discriminate.
  - destruct i as [|i].
    + simpl in H. injection H as -> ->. split; reflexivity.
    + simpl in H. apply IH in H. exact H.
Qed.

Lemma skipn_nil_inv {A} (l : list A) :
  forall i j, skipn i l = [] -> i <= j -> nth_error l j = None.
Proof.
  induction l as [|a l IH]; intros i j H Hle.
  - now destruct j.
  - destruct i as [|i]; [discriminate |].
    destruct j as [|j]; [lia |]. simpl. apply (IH i); [exact H | lia].
Qed.

Lemma find_some_in {A} (f : A -> bool) (l : list A) (x : A) :
  find f l = Some x -> In x l.
Proof. intros H. now apply find_some in H. Qed.

Lemma In_skipn {A} (l : list A) :
  forall i x, In x (skipn i l) -> In x l.
Proof.
  induction l as [|a l IH]; intros [|i] x H; simpl in *; auto.
  right. exact (IH i x H).
Qed.

(** ** WhitelistedTablesRule *)

Section WhitelistFacts.

Import WhitelistedTablesRule.

Lemma is_from_or_join_spec (tok : Token) :
  is_from_or_join tok = true
  <-> is_keyword tok = true
      /\ (normalized tok = "FROM" \/ normalized tok = "JOIN").
Proof.
  unfold is_from_or_join. rewrite andb_true_iff, PyStrFacts.mem_spec.
  simpl. intuition.
Qed.

Lemma from_join_at_spec (toks : list Token) (i : nat) :
  from_join_at toks i
  <-> exists tok, nth_error toks i = Some tok /\ is_from_or_join tok = true.
Proof.
  unfold from_join_at.
  split; intros [tok [H1 H2]]; exists tok; (split; [exact H1 |]);
    now apply is_from_or_join_spec.
Qed.

Lemma scan_candidate_at (toks : list Token) (i : nat) :
  scan_candidate toks (i + 1) = candidate_at toks i.
Proof. unfold scan_candidate, candidate_at. now rewrite Nat.add_1_r. Qed.

Lemma for_tokens_step (self : t) (toks : list Token) (i : nat)
    (token : Token) (pending' : list Token) :
  nth_error toks i = Some token ->
  for_tokens self toks i (token :: pending')
  = match body_at self toks i with
    | Some v => Ok v
    | None => for_tokens self toks (S i) pending'
    end.
Proof.
  intros Hn. unfold body_at. rewrite Hn. simpl.
  destruct (is_from_or_join token); [| reflexivity].
  destruct (scan_candidate toks (i + 1)) as [c|]; [| reflexivity].
  destruct (isinstance_Parenthesis c); [reflexivity |].
  destruct (negb _); reflexivity.
Qed.

Lemma for_tokens_pass (self : t) (toks : list Token) :
  forall pending i,
    skipn i toks = pending ->
    (forall k, i <= k -> body_at self toks k = None) ->
    for_tokens self toks i pending = Ok (true, EmptyString).
Proof.
  induction pending as [|token pending' IH]; intros i Hs Hall.
  - reflexivity.
  - apply skipn_cons_inv in Hs. destruct Hs as [Hn Hs].
    rewrite (for_tokens_step self toks i token pending' Hn).
    rewrite (Hall i) by lia.
    apply IH; [exact Hs | intros k Hk; apply Hall; lia].
Qed.

Lemma for_tokens_first_failure (self : t) (toks : list Token) :
  forall pending i j v,
    skipn i toks = pending ->
    i <= j ->
    body_at self toks j = Some v ->
    (forall k, i <= k -> k < j -> body_at self toks k = None) ->
    for_tokens self toks i pending = Ok v.
Proof.
  induction pending as [|token pending' IH]; intros i j v Hs Hle Hj Hbefore.
  - unfold body_at in Hj. rewrite (skipn_nil_inv toks i j Hs Hle) in Hj.
    discriminate.
  - apply skipn_cons_inv in Hs. destruct Hs as [Hn Hs].
    rewrite (for_tokens_step self toks i token pending' Hn).
    destruct (Nat.eq_dec i j) as [-> | Hne].
    + now rewrite Hj.
    + rewrite (Hbefore i) by lia.
      apply (IH (S i) j v); [exact Hs | lia | exact Hj |].
      intros k Hk1 Hk2. apply Hbefore; lia.
Qed.

Lemma for_tokens_never_raises (self : t) (toks : list Token) :
  forall pending i, exists v, for_tokens self toks i pending = Ok v.
Proof.
  induction pending as [|token pending' IH]; intros i; simpl; [eauto |].
  destruct (is_from_or_join token); [| apply IH].
  destruct (scan_candidate toks (i + 1)) as [c|]; [| eauto].
  destruct (isinstance_Parenthesis c); [apply IH |].
  destruct (negb _); [eauto | apply IH].
Qed.

Lemma body_at_false (self : t) (toks : list Token) (i : nat) (v : Verdict) :
  body_at self toks i = Some v -> fst v = false.
Proof.
  unfold body_at. destruct (nth_error toks i) as [token|]; [| discriminate].
  destruct (is_from_or_join token); [| discriminate].
  destruct (scan_candidate toks (i + 1)) as [c|].
  - destruct (isinstance_Parenthesis c); [discriminate |].
    destruct (negb _); [| discriminate]. now intros [= <-].
  - now intros [= <-].
Qed.

Lemma for_tokens_pass_inv (self : t) (toks : list Token) :
  forall pending i m,
    skipn i toks = pending ->
    for_tokens self toks i pending = Ok (true, m) ->
    forall k, i <= k -> body_at self toks k = None.
Proof.
  induction pending as [|token pending' IH]; intros i m Hs Hv k Hk.
  - unfold body_at. now rewrite (skipn_nil_inv toks i k Hs Hk).
  - apply skipn_cons_inv in Hs. destruct Hs as [Hn Hs].
    rewrite (for_tokens_step self toks i token pending' Hn) in Hv.
    destruct (body_at self toks i) as [v|] eqn:Hb.
    + apply body_at_false in Hb. injection Hv as ->. discriminate.
    + destruct (Nat.eq_dec i k) as [<- | Hne]; [exact Hb |].
      apply (IH (S i) m Hs Hv). lia.
Qed.

Lemma candidate_in (toks : list Token) (i : nat) (c : Token) :
  candidate_at toks i = Some c -> In c toks.
Proof.
  intros H. apply find_some_in in H. exact (In_skipn toks (S i) c H).
Qed.

Lemma body_at_none_iff (self : t) (toks : list Token) (i : nat) :
  leaves_only toks ->
  body_at self toks i = None
  <-> (from_join_at toks i -> target_allowed self toks i).
Proof.
  intros Hleaves. unfold body_at, target_allowed.
  rewrite from_join_at_spec, scan_candidate_at.
  destruct (nth_error toks i) as [token|].
  - destruct (is_from_or_join token) eqn:Hfj.
    + destruct (candidate_at toks i) as [c|] eqn:Hc.
      * rewrite (Hleaves c (candidate_in toks i c Hc)).
        destruct (PyStr.mem (table_name_of c) (allowed_tables self)) eqn:Hm;
          simpl.
        -- apply PyStrFacts.mem_spec in Hm. split; [| reflexivity].
           intros _ _. now exists c.
        -- split; [discriminate |]. intros H.
           destruct H as [c' [Hc' Hin]]; [now exists token |].
           injection Hc' as <-. apply PyStrFacts.mem_spec in Hin. congruence.
      * split; [discriminate |]. intros H.
        destruct H as [c' [Hc' _]]; [now exists token | discriminate].
    + split; [| reflexivity]. intros _ [tok [[= <-] Htok]]. congruence.
  - split; [| reflexivity]. intros _ [tok [Htok _]]. discriminate.
Qed.

Lemma body_at_not_allowed (self : t) (toks : list Token) (i : nat)
    (c : Token) :
  leaves_only toks ->
  from_join_at toks i ->
  candidate_at toks i = Some c ->
  ~ In (table_name_of c) (allowed_tables self) ->
  body_at self toks i
  = Some (false, not_allowed_message (table_name_of c)).
Proof.
  intros Hleaves Hfj Hc Hnot. unfold body_at.
  apply from_join_at_spec in Hfj. destruct Hfj as [tok [-> ->]].
  rewrite scan_candidate_at, Hc, (Hleaves c (candidate_in toks i c Hc)).
  destruct (PyStr.mem (table_name_of c) (allowed_tables self)) eqn:Hm.
  - apply PyStrFacts.mem_spec in Hm. contradiction.
  - reflexivity.
Qed.

Variable parse : string -> Result (list Statement).

Lemma whitelist_validate_ok (self : t) (sql : string)
    (sts : list Statement) :
  parse sql = Ok sts ->
  validate parse self sql
  = match sts with
    | [] => Ok (false, "No valid SQL statements found for table check.")
    | statement :: _ =>
        for_tokens self (flatten statement) 0 (flatten statement)
    end.
Proof.
  intros H. unfold validate. rewrite H. simpl.
  destruct sts as [|st sts]; [reflexivity |].
  destruct (for_tokens_never_raises self (flatten st) (flatten st) 0)
    as [v Hv].
  now rewrite Hv.
Qed.

Lemma whitelist_validate_raise (self : t) (sql e : string) :
  parse sql = Raise e ->
  validate parse self sql
  = Ok (false, "SQL parsing error during table whitelist check: " ++ e).
Proof. intros H. unfold validate. now rewrite H. Qed.

End WhitelistFacts.

(** C10. When the flattened stream of the first parsed statement holds no
    keyword token with normalized text [FROM] or [JOIN], the table rule
    returns [(True, '')] whatever names are allowed, the empty list of
    names included. *)
Theorem whitelist_passes_without_from_join
    (parse : string -> Result (list Statement))
    (self : WhitelistedTablesRule.t) (sql : string)
    (st : Statement) (rest : list Statement) :
  parse sql = Ok (st :: rest) ->
  (forall tok,
      In tok (flatten st) ->
      ~ (is_keyword tok = true
         /\ (normalized tok = "FROM" \/ normalized tok = "JOIN"))) ->
  WhitelistedTablesRule.validate parse self sql = Ok (true, EmptyString).
Proof.
  intros Hp Hnone.
  rewrite (whitelist_validate_ok parse self sql _ Hp).
  apply for_tokens_pass; [reflexivity |].
  intros k _. unfold body_at.
  destruct (nth_error (flatten st) k) as [token|] eqn:Hn; [| reflexivity].
  destruct (WhitelistedTablesRule.is_from_or_join token) eqn:Hfj;
    [| reflexivity].
  exfalso. apply (Hnone token).
  - exact (nth_error_In _ _ Hn).
  - now apply is_from_or_join_spec.
Qed.

(** ["SELECT 1"] passes the table rule with nothing allowed. *)
Lemma whitelist_passes_without_from_join_witness :
  WhitelistedTablesRule.validate Samples.parse
    (WhitelistedTablesRule.init []) "SELECT 1"
  = Ok (true, EmptyString).
Proof.
  apply (whitelist_passes_without_from_join Samples.parse
           (WhitelistedTablesRule.init []) "SELECT 1" Samples.stmt_one []).
  - reflexivity.
  - intros tok Hin [Hk Hnorm]. simpl in Hin.
    destruct Hin as [<- | [<- | [<- | []]]];
      first [ discriminate Hk
            | destruct Hnorm as [Hx | Hx]; discriminate Hx ].
Defined.

(** C5. The candidate after a FROM/JOIN keyword is taken from the
    flattened stream, which holds leaves only, so it is never a
    [Parenthesis] group and the skip is never taken: for a parenthesized
    subquery the candidate is the opening-parenthesis token, and
    ["SELECT * FROM (SELECT a FROM t) AS x"] is refused with [t] allowed,
    the message naming ['(']. *)
Theorem whitelist_subquery_source_rejected
    (parse : string -> Result (list Statement)) :
  (forall (st : Statement) (i : nat) (c : Token),
      from_join_at (flatten st) i ->
      candidate_at (flatten st) i = Some c ->
      isinstance_Parenthesis c = false)
  /\ (parse "SELECT * FROM (SELECT a FROM t) AS x"
      = Ok [Samples.stmt_subquery] ->
      WhitelistedTablesRule.validate parse
        (WhitelistedTablesRule.init ["t"])
        "SELECT * FROM (SELECT a FROM t) AS x"
      = Ok (false, "Access to table/object '(' is not allowed.")).
Proof.
  split.
  - intros st i c _ Hc. apply (flatten_no_parenthesis st).
    exact (candidate_in _ i c Hc).
  - intros Hp. rewrite (whitelist_validate_ok parse _ _ _ Hp). reflexivity.
Qed.

(** The table rule on the sample parse of the subquery query. *)
Lemma whitelist_subquery_source_rejected_witness :
  WhitelistedTablesRule.validate Samples.parse
    (WhitelistedTablesRule.init ["t"])
    "SELECT * FROM (SELECT a FROM t) AS x"
  = Ok (false, "Access to table/object '(' is not allowed.").
Proof.
  apply (proj2 (whitelist_subquery_source_rejected Samples.parse)).
  reflexivity.
Defined.

(** C6. The table rule reads the first parsed statement only: two inputs
    whose parses have the same first statement get the same verdict, the
    verdict is the one the loop computes on that statement's flattened
    stream, and it is [(True, '')] as soon as every FROM/JOIN target of
    the first statement is allowed, whatever the later statements are. *)
Theorem whitelist_first_statement_only
    (parse : string -> Result (list Statement))
    (self : WhitelistedTablesRule.t) :
  (forall s1 s2 l1 l2,
      parse s1 = Ok l1 -> parse s2 = Ok l2 ->
      hd_error l1 = hd_error l2 ->
      WhitelistedTablesRule.validate parse self s1
      = WhitelistedTablesRule.validate parse self s2)
  /\ (forall s st rest,
         parse s = Ok (st :: rest) ->
         WhitelistedTablesRule.validate parse self s
         = WhitelistedTablesRule.for_tokens self (flatten st) 0 (flatten st))
  /\ (forall s st rest,
         parse s = Ok (st :: rest) ->
         (forall i, from_join_at (flatten st) i ->
                    target_allowed self (flatten st) i) ->
         WhitelistedTablesRule.validate parse self s
         = Ok (true, EmptyString)).
Proof.
  repeat split.
  - intros s1 s2 l1 l2 H1 H2 Hhd.
    rewrite (whitelist_validate_ok parse self s1 l1 H1).
    rewrite (whitelist_validate_ok parse self s2 l2 H2).
    destruct l1 as [|a l1], l2 as [|b l2]; try discriminate;
      [reflexivity |].
    injection Hhd as ->. reflexivity.
  - intros s st rest Hp.
    now rewrite (whitelist_validate_ok parse self s _ Hp).
  - intros s st rest Hp Hall.
    rewrite (whitelist_validate_ok parse self s _ Hp).
    apply for_tokens_pass; [reflexivity |].
    intros k _. apply body_at_none_iff; [| apply Hall].
    intros x Hx. exact (flatten_no_parenthesis st x Hx).
Qed.

(** With nothing allowed, ["SELECT 1; SELECT name FROM secret_table"]
    gets the verdict of ["SELECT 1; "], which is a pass: the second
    statement's table is not looked at. *)
Lemma whitelist_first_statement_only_witness :
  WhitelistedTablesRule.validate Samples.parse
    (WhitelistedTablesRule.init []) Samples.sql_two
  = WhitelistedTablesRule.validate Samples.parse
      (WhitelistedTablesRule.init []) Samples.sql_semi
  /\ WhitelistedTablesRule.validate Samples.parse
       (WhitelistedTablesRule.init []) Samples.sql_two
     = Ok (true, EmptyString).
Proof.
  split.
  - apply (proj1 (whitelist_first_statement_only Samples.parse
                    (WhitelistedTablesRule.init []))
             Samples.sql_two Samples.sql_semi
             [Samples.stmt_one_semi; Samples.stmt_secret]
             [Samples.stmt_one_semi]); reflexivity.
  - rewrite (proj1 (proj2 (whitelist_first_statement_only Samples.parse
                             (WhitelistedTablesRule.init [])))
               Samples.sql_two Samples.stmt_one_semi [Samples.stmt_secret]
               eq_refl).
    reflexivity.
Defined.

(** ** RuleExecutor *)

Section ExecutorFacts.

Import RuleExecutor.
Context {World : Type}.

Lemma execute_rules_after_passing
    (pre post : list (@ValidationRule World)) (sql : string) :
  forall w w1,
    all_pass pre sql w w1 ->
    execute_rules (pre ++ post)%list sql w = execute_rules post sql w1.
Proof.
  induction pre as [|rule pre IH]; intros w w1 H.
  - simpl in H. now subst.
  - destruct H as [m [w0 [Hr Hrest]]]. simpl. rewrite Hr. simpl.
    exact (IH w0 w1 Hrest).
Qed.

Lemma execute_builtin_never_raises
    (parse : string -> Result (list Statement))
    (never_raises :
       forall r sql, exists v,
         match r with
         | ForbiddenKeywords => ForbiddenKeywordsRule.validate
         | OnlySelectStatements => OnlySelectStatementsRule.validate parse
         | WhitelistedTables self => WhitelistedTablesRule.validate parse self
         end sql = Ok v)
    (rules : list BuiltinRule) (sql : string) (w : World) :
  exists v, execute_rules (map (builtin parse) rules) sql w = (Ok v, w).
Proof.
  induction rules as [|r rules IH]; simpl; [eauto |].
  unfold builtin at 1, pure_rule.
  destruct (never_raises r sql) as [[b m] Hv]. rewrite Hv.
  destruct b; simpl; [exact IH | eauto].
Qed.

End ExecutorFacts.

(** C4. [execute_rules] runs the rules in order.  When the rules before
    some rule all pass and that rule fails, the result is that rule's
    failing verdict and the world is the one that rule left: nothing after
    it in the list has run, whatever it is.  When every rule passes the
    result is [(True, 'All rules passed.')]. *)
Theorem execute_rules_fail_fast (World : Type) :
  (forall (pre post : list (@RuleExecutor.ValidationRule World))
          (rule : RuleExecutor.ValidationRule)
          (sql : string) (w w1 w2 : World) (msg : string),
      all_pass pre sql w w1 ->
      rule sql w1 = (Ok (false, msg), w2) ->
      RuleExecutor.execute_rules (pre ++ rule :: post)%list sql w
      = (Ok (false, msg), w2))
  /\ (forall (rules : list (@RuleExecutor.ValidationRule World))
             (sql : string) (w w' : World),
         all_pass rules sql w w' ->
         RuleExecutor.execute_rules rules sql w
         = (Ok (true, "All rules passed."), w')).
Proof.
  split.
  - intros pre post rule sql w w1 w2 msg Hpre Hrule.
    rewrite (execute_rules_after_passing pre (rule :: post) sql w w1 Hpre).
    simpl. rewrite Hrule. reflexivity.
  - intros rules sql w w' Hall.
    rewrite <- (app_nil_r rules).
    rewrite (execute_rules_after_passing rules [] sql w w' Hall).
    reflexivity.
Qed.

(** Call counting: of a passing, a failing and a further rule only the
    first two are called, and two passing rules are both called. *)
Lemma execute_rules_fail_fast_witness :
  RuleExecutor.execute_rules
    [counting_rule (true, EmptyString); counting_rule (false, "refused");
     counting_rule (false, "never reached")] "SELECT 1" 0
  = (Ok (false, "refused"), 2)
  /\ RuleExecutor.execute_rules
       [counting_rule (true, EmptyString); counting_rule (true, EmptyString)]
       "SELECT 1" 0
     = (Ok (true, "All rules passed."), 2).
Proof.
  split.
  - apply (proj1 (execute_rules_fail_fast nat)
             [counting_rule (true, EmptyString)]
             [counting_rule (false, "never reached")]
             (counting_rule (false, "refused")) "SELECT 1" 0 1 2 "refused").
    + exists EmptyString, 1. split; reflexivity.
    + reflexivity.
  - apply (proj2 (execute_rules_fail_fast nat)).
    exists EmptyString, 1. split; [reflexivity |].
    exists EmptyString, 2. split; reflexivity.
Defined.

(** ** Verdicts of the rules *)

Lemma builtin_never_raises (parse : string -> Result (list Statement))
    (r : RuleExecutor.BuiltinRule) (sql : string) :
  exists v,
    match r with
    | RuleExecutor.ForbiddenKeywords => ForbiddenKeywordsRule.validate
    | RuleExecutor.OnlySelectStatements =>
        OnlySelectStatementsRule.validate parse
    | RuleExecutor.WhitelistedTables self =>
        WhitelistedTablesRule.validate parse self
    end sql = Ok v.
Proof.
  destruct r as [| | self].
  - unfold ForbiddenKeywordsRule.validate. destruct (existsb _ _); eauto.
  - destruct (parse sql) as [sts|e] eqn:Hp.
    + rewrite (only_select_validate_ok parse sql sts Hp).
      destruct sts; [eauto | apply for_statements_never_raises].
    + rewrite (only_select_validate_raise parse sql e Hp). eauto.
  - destruct (parse sql) as [sts|e] eqn:Hp.
    + rewrite (whitelist_validate_ok parse self sql sts Hp).
      destruct sts; [eauto | apply for_tokens_never_raises].
    + rewrite (whitelist_validate_raise parse self sql e Hp). eauto.
Qed.

(** C7. Each rule's [validate] returns a verdict for every input and
    every parser, a parser that raises included: the exception is caught
    and becomes a failing verdict whose message starts with the rule's
    SQL-parsing-error text and ends with the exception's text.  The
    executor running any list of the three rules returns a verdict too,
    and leaves the world as it was. *)
Theorem rules_never_raise
    (parse : string -> Result (list Statement)) (sql : string) :
  (exists v, ForbiddenKeywordsRule.validate sql = Ok v)
  /\ (exists v, OnlySelectStatementsRule.validate parse sql = Ok v)
  /\ (forall self,
         exists v, WhitelistedTablesRule.validate parse self sql = Ok v)
  /\ (forall e,
         parse sql = Raise e ->
         OnlySelectStatementsRule.validate parse sql
         = Ok (false, "SQL parsing error during statement type check: " ++ e)
         /\ forall self,
             WhitelistedTablesRule.validate parse self sql
             = Ok (false,
                   "SQL parsing error during table whitelist check: " ++ e))
  /\ (forall (World : Type) (rules : list RuleExecutor.BuiltinRule)
             (w : World),
         exists v,
           RuleExecutor.execute_rules
             (map (RuleExecutor.builtin parse) rules) sql w
           = (Ok v, w)).
Proof.
  split; [exact (builtin_never_raises parse RuleExecutor.ForbiddenKeywords sql) |].
  split; [exact (builtin_never_raises parse RuleExecutor.OnlySelectStatements sql) |].
  split; [intros self;
          exact (builtin_never_raises parse
                   (RuleExecutor.WhitelistedTables self) sql) |].
  split.
  - intros e Hp. split.
    + exact (only_select_validate_raise parse sql e Hp).
    + intros self. exact (whitelist_validate_raise parse self sql e Hp).
  - intros World rules w.
    apply execute_builtin_never_raises. apply builtin_never_raises.
Qed.

(** A query the sample parser raises on: both parsing rules turn the
    exception into a failing verdict. *)
Lemma rules_never_raise_witness :
  OnlySelectStatementsRule.validate Samples.parse "SELEC T"
  = Ok (false,
        "SQL parsing error during statement type check: sample parser: unknown query")
  /\ WhitelistedTablesRule.validate Samples.parse
       (WhitelistedTablesRule.init ["positions"]) "SELEC T"
     = Ok (false,
           "SQL parsing error during table whitelist check: sample parser: unknown query").
Proof.
  destruct (proj1 (proj2 (proj2 (proj2
              (rules_never_raise Samples.parse "SELEC T"))))
              "sample parser: unknown query" eq_refl) as [H1 H2].
  split; [exact H1 | exact (H2 _)].
Defined.

Lemma for_statements_forms (sts : list Statement) (b : bool) (m : string) :
  OnlySelectStatementsRule.for_statements sts = Ok (b, m) ->
  (b = true /\ m = EmptyString)
  \/ (b = false
      /\ (m = "Invalid SQL statement structure: Cannot determine statement type."
          \/ exists ty, ty <> "SELECT"
                        /\ m = OnlySelectStatementsRule.forbidden_type_message ty)).
Proof.
  induction sts as [|st sts IH]; simpl.
  - intros [= <- <-]. now left.
  - destruct (token_first st) as [tok|].
    + destruct (normalized tok =? "SELECT") eqn:Hn; simpl; [exact IH |].
      apply String.eqb_neq in Hn. intros [= <- <-]. right.
      split; [reflexivity | right]. now exists (normalized tok).
    + intros [= <- <-]. right. split; [reflexivity | now left].
Qed.

Lemma for_tokens_forms (self : WhitelistedTablesRule.t)
    (toks : list Token) (b : bool) (m : string) :
  forall pending i,
    WhitelistedTablesRule.for_tokens self toks i pending = Ok (b, m) ->
    (b = true /\ m = EmptyString)
    \/ (b = false
        /\ (m = "Could not identify table name after FROM/JOIN clause."
            \/ exists name,
                ~ In name (WhitelistedTablesRule.allowed_tables self)
                /\ m = WhitelistedTablesRule.not_allowed_message name)).
Proof.
  induction pending as [|token pending' IH]; intros i; simpl.
  - intros [= <- <-]. now left.
  - destruct (WhitelistedTablesRule.is_from_or_join token); [| apply IH].
    destruct (WhitelistedTablesRule.scan_candidate toks (i + 1)) as [c|].
    + destruct (isinstance_Parenthesis c); [apply IH |].
      destruct (PyStr.mem _ _) eqn:Hm; simpl; [apply IH |].
      intros [= <- <-]. right. split; [reflexivity | right].
      exists (WhitelistedTablesRule.table_name_of c).
      split; [| reflexivity].
      intros Hin. apply PyStrFacts.mem_spec in Hin. congruence.
    + intros [= <- <-]. right. split; [reflexivity | now left].
Qed.

Lemma only_select_validate_forms
    (parse : string -> Result (list Statement)) (sql : string)
    (b : bool) (m : string) :
  OnlySelectStatementsRule.validate parse sql = Ok (b, m) ->
  (b = true /\ m = EmptyString)
  \/ (b = false
      /\ (m = "No valid SQL statements found."
          \/ m = "Invalid SQL statement structure: Cannot determine statement type."
          \/ (exists ty,
                 ty <> "SELECT"
                 /\ m = "Forbidden statement type '" ++ ty
                        ++ "' detected. Only SELECT queries are allowed.")
          \/ exists e,
              m = "SQL parsing error during statement type check: " ++ e)).
Proof.
  destruct (parse sql) as [sts|e] eqn:Hp.
  - rewrite (only_select_validate_ok parse sql sts Hp).
    destruct sts as [|st sts].
    + intros [= <- <-]. right. split; [reflexivity | now left].
    + intros H. apply for_statements_forms in H.
      destruct H as [H | [Hb [H | H]]]; [now left | |];
        right; (split; [exact Hb |]); tauto.
  - rewrite (only_select_validate_raise parse sql e Hp).
    intros [= <- <-]. right. split; [reflexivity |].
    right. right. right. now exists e.
Qed.

Lemma whitelist_validate_forms
    (parse : string -> Result (list Statement))
    (self : WhitelistedTablesRule.t) (sql : string)
    (b : bool) (m : string) :
  WhitelistedTablesRule.validate parse self sql = Ok (b, m) ->
  (b = true /\ m = EmptyString)
  \/ (b = false
      /\ (m = "No valid SQL statements found for table check."
          \/ m = "Could not identify table name after FROM/JOIN clause."
          \/ (exists name,
                 ~ In name (WhitelistedTablesRule.allowed_tables self)
                 /\ m = "Access to table/object '" ++ name
                        ++ "' is not allowed.")
          \/ exists e,
              m = "SQL parsing error during table whitelist check: " ++ e)).
Proof.
  destruct (parse sql) as [sts|e] eqn:Hp.
  - rewrite (whitelist_validate_ok parse self sql sts Hp).
    destruct sts as [|st sts].
    + intros [= <- <-]. right. split; [reflexivity | now left].
    + intros H. apply for_tokens_forms in H.
      destruct H as [H | [Hb [H | H]]]; [now left | |];
        right; (split; [exact Hb |]); tauto.
  - rewrite (whitelist_validate_raise parse self sql e Hp).
    intros [= <- <-]. right. split; [reflexivity |].
    right. right. right. now exists e.
Qed.

Lemma builtin_verdict_invariant
    (parse : string -> Result (list Statement))
    (r : RuleExecutor.BuiltinRule) (sql : string) (b : bool) (m : string) :
  match r with
  | RuleExecutor.ForbiddenKeywords => ForbiddenKeywordsRule.validate
  | RuleExecutor.OnlySelectStatements =>
      OnlySelectStatementsRule.validate parse
  | RuleExecutor.WhitelistedTables self =>
      WhitelistedTablesRule.validate parse self
  end sql = Ok (b, m) ->
  (m = EmptyString <-> b = true).
Proof.
  destruct r as [| | self]; intros H.
  - unfold ForbiddenKeywordsRule.validate in H.
    destruct (existsb _ _); injection H as <- <-; split;
      (reflexivity || discriminate).
  - apply only_select_validate_forms in H.
    destruct H as [[-> ->] | [-> [-> | [-> | [[ty [_ ->]] | [e ->]]]]]];
      split; (reflexivity || discriminate).
  - apply whitelist_validate_forms in H.
    destruct H as [[-> ->] | [-> [-> | [-> | [[name [_ ->]] | [e ->]]]]]];
      split; (reflexivity || discriminate).
Qed.

(** C8, as stated, fails on the executor: for the empty rule list, and for
    the deployed three rules on a query they all accept, the verdict is
    [(True, 'All rules passed.')], a passing verdict with a diagnostic
    that is not empty. *)
Lemma executor_pass_message_not_empty :
  (exists b m,
      RuleExecutor.execute_rules (World := unit) [] "SELECT 1" tt
      = (Ok (b, m), tt)
      /\ ~ (m = EmptyString <-> b = true))
  /\ (exists b m,
         RuleExecutor.execute_rules (World := unit)
           (map (RuleExecutor.builtin Samples.parse)
              [RuleExecutor.ForbiddenKeywords;
               RuleExecutor.OnlySelectStatements;
               RuleExecutor.WhitelistedTables
                 (WhitelistedTablesRule.init
                    ["client_academic_data"; "client_info_view";
                     "client_positions"; "positions"])])
           Samples.sql_view tt
         = (Ok (b, m), tt)
         /\ ~ (m = EmptyString <-> b = true)).
Proof.
  split; exists true, "All rules passed."; (split; [reflexivity |]);
    intros [_ H]; specialize (H eq_refl); discriminate H.
Qed.

(** C8, amended.  A verdict of each of the three rules has an empty
    diagnostic exactly when its boolean is true, and a failing verdict
    carries one of the rule's failure messages: the fixed forbidden-keyword
    message; for the statement rule the no-statement message, the
    undeterminable-type message, the message quoting a statement type other
    than SELECT, or the parsing-error message; for the table rule the
    no-statement message, the missing-table-name message, the message
    quoting a name outside the allowed list, or the parsing-error message.
    The executor over these rules never returns an empty diagnostic: a
    passing verdict carries ['All rules passed.'] and a failing one the
    message of a rule of the list that fails. *)
Theorem verdict_diagnostic_invariant
    (parse : string -> Result (list Statement)) (sql : string) :
  (forall b m,
      ForbiddenKeywordsRule.validate sql = Ok (b, m) ->
      (m = EmptyString <-> b = true)
      /\ (b = false ->
          m = "Forbidden SQL keywords detected. Only SELECT queries are allowed."))
  /\ (forall b m,
         OnlySelectStatementsRule.validate parse sql = Ok (b, m) ->
         (m = EmptyString <-> b = true)
         /\ (b = false ->
             m = "No valid SQL statements found."
             \/ m = "Invalid SQL statement structure: Cannot determine statement type."
             \/ (exists ty,
                    ty <> "SELECT"
                    /\ m = "Forbidden statement type '" ++ ty
                           ++ "' detected. Only SELECT queries are allowed.")
             \/ exists e,
                 m = "SQL parsing error during statement type check: " ++ e))
  /\ (forall self b m,
         WhitelistedTablesRule.validate parse self sql = Ok (b, m) ->
         (m = EmptyString <-> b = true)
         /\ (b = false ->
             m = "No valid SQL statements found for table check."
             \/ m = "Could not identify table name after FROM/JOIN clause."
             \/ (exists name,
                    ~ In name (WhitelistedTablesRule.allowed_tables self)
                    /\ m = "Access to table/object '" ++ name
                           ++ "' is not allowed.")
             \/ exists e,
                 m = "SQL parsing error during table whitelist check: " ++ e))
  /\ (forall (World : Type) (rules : list RuleExecutor.BuiltinRule)
             (w w' : World) b m,
         RuleExecutor.execute_rules
           (map (RuleExecutor.builtin parse) rules) sql w
         = (Ok (b, m), w') ->
         m <> EmptyString
         /\ (b = true -> m = "All rules passed.")
         /\ (b = false ->
             exists r, In r rules
                       /\ RuleExecutor.builtin parse r sql w
                          = (Ok (false, m), w))).
Proof.
  split; [| split; [| split]].
  - intros b m H.
    split; [exact (builtin_verdict_invariant parse
                     RuleExecutor.ForbiddenKeywords sql b m H) |].
    unfold ForbiddenKeywordsRule.validate in H.
    destruct (existsb _ _); injection H as <- <-;
      [reflexivity | discriminate].
  - intros b m H.
    split; [exact (builtin_verdict_invariant parse
                     RuleExecutor.OnlySelectStatements sql b m H) |].
    intros ->. apply only_select_validate_forms in H.
    destruct H as [[Hb _] | [_ H]]; [discriminate | exact H].
  - intros self b m H.
    split; [exact (builtin_verdict_invariant parse
                     (RuleExecutor.WhitelistedTables self) sql b m H) |].
    intros ->. apply whitelist_validate_forms in H.
    destruct H as [[Hb _] | [_ H]]; [discriminate | exact H].
  - intros World rules w w' b m.
    induction rules as [|r rules IH]; simpl.
    + intros [= <- <- <-].
      split; [discriminate | split; [reflexivity | discriminate]].
    + unfold RuleExecutor.builtin at 1, RuleExecutor.pure_rule.
      destruct (builtin_never_raises parse r sql) as [[b0 m0] Hv].
      rewrite Hv. destruct b0; simpl.
      * intros H. destruct (IH H) as [H1 [H2 H3]].
        split; [exact H1 | split; [exact H2 |]].
        intros Hb. destruct (H3 Hb) as [r' [Hin Hr']].
        exists r'. split; [now right | exact Hr'].
      * intros [= <- <- <-].
        pose proof (builtin_verdict_invariant parse r sql false m0 Hv)
          as Hinv.
        split; [| split; [discriminate |]].
        -- intros ->. destruct Hinv as [Hinv _].
           specialize (Hinv eq_refl). discriminate Hinv.
        -- intros _. exists r. split; [now left |].
           unfold RuleExecutor.builtin, RuleExecutor.pure_rule.
           now rewrite Hv.
Qed.

(** The deployed pipeline on a refused query: the diagnostic is not empty
    and is the table rule's. *)
Lemma verdict_diagnostic_invariant_witness :
  "Access to table/object 'secret_table' is not allowed." <> EmptyString
  /\ exists r,
      In r [RuleExecutor.ForbiddenKeywords;
            RuleExecutor.OnlySelectStatements;
            RuleExecutor.WhitelistedTables
              (WhitelistedTablesRule.init
                 ["client_academic_data"; "client_info_view";
                  "client_positions"; "positions"])]
      /\ RuleExecutor.builtin Samples.parse r Samples.sql_secret tt
         = (Ok (false,
                "Access to table/object 'secret_table' is not allowed."),
            tt).
Proof.
  destruct (proj2 (proj2 (proj2
              (verdict_diagnostic_invariant Samples.parse Samples.sql_secret)))
              unit
              [RuleExecutor.ForbiddenKeywords;
               RuleExecutor.OnlySelectStatements;
               RuleExecutor.WhitelistedTables
                 (WhitelistedTablesRule.init
                    ["client_academic_data"; "client_info_view";
                     "client_positions"; "positions"])]
              tt tt false
              "Access to table/object 'secret_table' is not allowed."
              eq_refl) as [H1 [_ H3]].
  split; [exact H1 | exact (H3 eq_refl)].
Defined.

(** ** The deployed pipeline on the specification's examples *)

(** Quote delimiters around a name are dropped and the name is
    lower-cased. *)
Lemma table_name_of_strips_quotes :
  WhitelistedTablesRule.table_name_of
    (Samples.name
       (String WhitelistedTablesRule.backtick
          ("Positions" ++ String WhitelistedTablesRule.backtick EmptyString)))
  = "positions".
Proof. reflexivity. Qed.

(** A query with a forbidden keyword is refused by the first rule, so the
    parser's answer on it is never consulted. *)
Lemma executor_refuses_drop_before_parsing
    (parse : string -> Result (list Statement))
    (self : WhitelistedTablesRule.t) :
  RuleExecutor.execute_rules (World := unit)
    (map (RuleExecutor.builtin parse)
       [RuleExecutor.ForbiddenKeywords; RuleExecutor.OnlySelectStatements;
        RuleExecutor.WhitelistedTables self])
    "SELECT * FROM client_academic_data; DROP TABLE client" tt
  = (Ok (false,
         "Forbidden SQL keywords detected. Only SELECT queries are allowed."),
     tt).
Proof. reflexivity. Qed.

(* ------------------------------------------------------------------ *)
(** * Further properties of the rules *)

(** ** Trimming and lower-casing *)

Module StripFacts.
Import PyStr.

Lemma lower_char_idem (c : ascii) : lower_char (lower_char c) = lower_char c.
Proof.
  destruct c as [b0 b1 b2 b3 b4 b5 b6 b7].
  destruct b0, b1, b2, b3, b4, b5, b6, b7; reflexivity.
Qed.

Lemma isspace_lower_char (c : ascii) : isspace (lower_char c) = isspace c.
Proof.
  destruct c as [b0 b1 b2 b3 b4 b5 b6 b7].
  destruct b0, b1, b2, b3, b4, b5, b6, b7; reflexivity.
Qed.

Lemma lower_idem (s : string) : lower (lower s) = lower s.
Proof.
  induction s as [|c s IH]; simpl; [reflexivity |].
  now rewrite lower_char_idem, IH.
Qed.

Lemma lower_app (a b : string) : lower (a ++ b) = lower a ++ lower b.
Proof.
  induction a as [|c a IH]; simpl; [reflexivity | now rewrite IH].
Qed.

Lemma app_assoc_str (a b c : string) : (a ++ b) ++ c = a ++ b ++ c.
Proof.
  induction a as [|x a IH]; simpl; [reflexivity | now rewrite IH].
Qed.

Lemma app_empty_r (a : string) : a ++ EmptyString = a.
Proof.
  induction a as [|x a IH]; simpl; [reflexivity | now rewrite IH].
Qed.

Lemma lstrip_lower (s : string) :
  lstrip_by isspace (lower s) = lower (lstrip_by isspace s).
Proof.
  induction s as [|c s IH]; simpl; [reflexivity |].
  rewrite isspace_lower_char. destruct (isspace c); [exact IH | reflexivity].
Qed.

Lemma rstrip_lower (s : string) :
  rstrip_by isspace (lower s) = lower (rstrip_by isspace s).
Proof.
  induction s as [|c s IH]; simpl; [reflexivity |].
  rewrite IH, isspace_lower_char.
  destruct (rstrip_by isspace s) as [|d r]; simpl.
  - destruct (isspace c); reflexivity.
  - reflexivity.
Qed.

Lemma strip_lower (s : string) : strip (lower s) = lower (strip s).
Proof.
  unfold strip, strip_by. now rewrite lstrip_lower, rstrip_lower.
Qed.

Lemma lstrip_starts_clean (p : ascii -> bool) (s : string) :
  starts_clean p (lstrip_by p s).
Proof.
  induction s as [|c s IH]; simpl; [exact I |].
  destruct (p c) eqn:E; [exact IH | exact E].
Qed.

Lemma lstrip_clean (p : ascii -> bool) (s : string) :
  starts_clean p s -> lstrip_by p s = s.
Proof.
  destruct s as [|c s]; simpl; [reflexivity |]. now intros ->.
Qed.

Lemma rstrip_cons_keep (p : ascii -> bool) (c : ascii) (s : string) :
  p c = false -> rstrip_by p (String c s) = String c (rstrip_by p s).
Proof.
  intros H. simpl. rewrite H. now destruct (rstrip_by p s).
Qed.

Lemma rstrip_starts_clean (p : ascii -> bool) (s : string) :
  starts_clean p s -> starts_clean p (rstrip_by p s).
Proof.
  destruct s as [|c s]; [trivial |]. intros H.
  rewrite (rstrip_cons_keep p c s H). exact H.
Qed.

Lemma rstrip_idem (p : ascii -> bool) (s : string) :
  rstrip_by p (rstrip_by p s) = rstrip_by p s.
Proof.
  induction s as [|c s IH]; [reflexivity |].
  simpl. destruct (rstrip_by p s) as [|d r] eqn:E.
  - destruct (p c) eqn:Hc; simpl; [reflexivity | now rewrite Hc].
  - change (rstrip_by p (String c (String d r)) = String c (String d r)).
    cbn [rstrip_by]. cbn [rstrip_by] in IH. now rewrite IH.
Qed.

Lemma strip_by_idem (p : ascii -> bool) (s : string) :
  strip_by p (strip_by p s) = strip_by p s.
Proof.
  unfold strip_by.
  rewrite (lstrip_clean p (rstrip_by p (lstrip_by p s))).
  - apply rstrip_idem.
  - apply rstrip_starts_clean, lstrip_starts_clean.
Qed.

Lemma strip_idem (s : string) : strip (strip s) = strip s.
Proof. apply strip_by_idem. Qed.

Lemma lstrip_suffix (p : ascii -> bool) (s : string) :
  exists l, s = l ++ lstrip_by p s.
Proof.
  induction s as [|c s [l IH]]; simpl.
  - now exists EmptyString.
  - destruct (p c).
    + exists (String c l). simpl. now rewrite <- IH.
    + now exists EmptyString.
Qed.

Lemma rstrip_prefix (p : ascii -> bool) (s : string) :
  exists r, s = rstrip_by p s ++ r.
Proof.
  induction s as [|c s [r IH]]; simpl.
  - now exists EmptyString.
  - destruct (rstrip_by p s) as [|d t] eqn:E.
    + destruct (p c).
      * now exists (String c s).
      * exists s. reflexivity.
    + exists r. simpl. simpl in IH. now rewrite <- IH.
Qed.

Lemma strip_by_inside (p : ascii -> bool) (s : string) :
  exists l r, s = l ++ strip_by p s ++ r.
Proof.
  destruct (lstrip_suffix p s) as [l Hl].
  destruct (rstrip_prefix p (lstrip_by p s)) as [r Hr].
  exists l, r. unfold strip_by. now rewrite <- Hr.
Qed.

(** White space in front is dropped. *)
Lemma lstrip_all_space (pre s : string) :
  all_space pre = true ->
  lstrip_by isspace (pre ++ s) = lstrip_by isspace s.
Proof.
  induction pre as [|c pre IH]; simpl; [reflexivity |].
  intros H. apply andb_true_iff in H. destruct H as [Hc Hpre].
  rewrite Hc. now apply IH.
Qed.

Lemma rstrip_all_space_nil (post : string) :
  all_space post = true -> rstrip_by isspace post = EmptyString.
Proof.
  induction post as [|c post IH]; simpl; [reflexivity |].
  intros H. apply andb_true_iff in H. destruct H as [Hc Hpost].
  now rewrite (IH Hpost), Hc.
Qed.

Lemma rstrip_all_space (s post : string) :
  all_space post = true ->
  rstrip_by isspace (s ++ post) = rstrip_by isspace s.
Proof.
  intros H. induction s as [|c s IH]; simpl.
  - now apply rstrip_all_space_nil.
  - now rewrite IH.
Qed.

Lemma lstrip_all_space_nil (post : string) :
  all_space post = true -> lstrip_by isspace post = EmptyString.
Proof.
  induction post as [|c post IH]; simpl; [reflexivity |].
  intros H. apply andb_true_iff in H. destruct H as [Hc Hpost].
  rewrite Hc. now apply IH.
Qed.

Lemma strip_app_space (s post : string) :
  all_space post = true -> strip (s ++ post) = strip s.
Proof.
  intros H. unfold strip, strip_by.
  induction s as [|c s IH]; simpl.
  - now rewrite (lstrip_all_space_nil post H).
  - destruct (isspace c); [exact IH |].
    change (rstrip_by isspace (String c s ++ post)
            = rstrip_by isspace (String c s)).
    now apply rstrip_all_space.
Qed.

Lemma strip_surrounded (pre s post : string) :
  all_space pre = true -> all_space post = true ->
  strip (pre ++ s ++ post) = strip s.
Proof.
  intros Hpre Hpost.
  transitivity (strip (s ++ post)); [| now apply strip_app_space].
  unfold strip, strip_by. now rewrite lstrip_all_space.
Qed.

Lemma rstrip_app_nonempty (p : ascii -> bool) (x w : string) :
  rstrip_by p w <> EmptyString ->
  rstrip_by p (x ++ w) = x ++ rstrip_by p w.
Proof.
  intros Hw. induction x as [|c x IH]; simpl; [reflexivity |].
  rewrite IH. destruct (x ++ rstrip_by p w) as [|d t] eqn:E; [| reflexivity].
  destruct x; simpl in E; [contradiction | discriminate].
Qed.

Lemma rstrip_keeps (p : ascii -> bool) (u y : string) :
  rstrip_by p u = u -> u <> EmptyString ->
  exists y', rstrip_by p (u ++ y) = u ++ y'.
Proof.
  induction u as [|c u IH]; intros Hu Hne; [contradiction |].
  simpl in Hu. destruct (rstrip_by p u) as [|d r] eqn:E.
  - destruct (p c) eqn:Hc; [discriminate |].
    injection Hu as <-. exists (rstrip_by p y).
    change (rstrip_by p (String c y) = String c (rstrip_by p y)).
    now apply rstrip_cons_keep.
  - injection Hu as Hu. destruct IH as [y' Hy']; [exact Hu | |].
    + rewrite <- Hu. discriminate.
    + exists y'. simpl. rewrite Hy'. rewrite <- Hu. reflexivity.
Qed.

Lemma lstrip_keeps (p : ascii -> bool) (x core y : string) :
  starts_clean p core -> core <> EmptyString ->
  exists x', lstrip_by p (x ++ core ++ y) = x' ++ core ++ y.
Proof.
  intros Hc Hne. induction x as [|c x [x' IH]]; simpl.
  - exists EmptyString. simpl. apply lstrip_clean.
    destruct core; [contradiction | exact Hc].
  - destruct (p c).
    + now exists x'.
    + now exists (String c x).
Qed.

Lemma strip_keeps_core (p : ascii -> bool) (x core y : string) :
  starts_clean p core -> rstrip_by p core = core -> core <> EmptyString ->
  exists x' y', strip_by p (x ++ core ++ y) = x' ++ core ++ y'.
Proof.
  intros Hc Hr Hne. unfold strip_by.
  destruct (lstrip_keeps p x core y Hc Hne) as [x' ->].
  destruct (rstrip_keeps p core y Hr Hne) as [y' Hy'].
  exists x', y'. rewrite rstrip_app_nonempty; rewrite Hy'.
  - reflexivity.
  - destruct core; [contradiction | discriminate].
Qed.

Lemma strip_by_core (p : ascii -> bool) (s : string) :
  starts_clean p (strip_by p s)
  /\ rstrip_by p (strip_by p s) = strip_by p s.
Proof.
  split.
  - apply rstrip_starts_clean, lstrip_starts_clean.
  - apply rstrip_idem.
Qed.

(** What trimming keeps of a string stays inside the trimmed text of any
    string that contains it. *)
Lemma strip_inside_context (a s b : string) :
  strip s <> EmptyString ->
  exists x y, strip (a ++ s ++ b) = x ++ strip s ++ y.
Proof.
  intros Hne. destruct (strip_by_inside isspace s) as [l [r Hs]].
  fold (strip s) in Hs. destruct (strip_by_core isspace s) as [Hc Hr].
  fold (strip s) in Hc, Hr.
  destruct (strip_keeps_core isspace (a ++ l) (strip s) (r ++ b) Hc Hr Hne)
    as [x [y H]].
  exists x, y. fold (strip ((a ++ l) ++ strip s ++ r ++ b)) in H.
  rewrite <- H. f_equal.
  rewrite Hs at 1. now rewrite !app_assoc_str.
Qed.

Lemma substring_of_nonempty (k hay : string) :
  k <> EmptyString -> substring_of k hay -> hay <> EmptyString.
Proof.
  intros Hk [pre [post ->]] H.
  destruct pre; [| discriminate]. destruct k; [contradiction | discriminate].
Qed.

Lemma substring_of_context (k x core y : string) :
  substring_of k core -> substring_of k (x ++ core ++ y).
Proof.
  intros [pre [post ->]]. exists (x ++ pre), (post ++ y).
  now rewrite !app_assoc_str.
Qed.

Lemma lower_nonempty (s : string) :
  lower s <> EmptyString -> s <> EmptyString.
Proof. now destruct s. Qed.

End StripFacts.

(** ** ForbiddenKeywordsRule under changes of the input *)

Lemma forbidden_validate_fail_iff (s : string) :
  ForbiddenKeywordsRule.validate s
  = Ok (false, ForbiddenKeywordsRule.message)
  <-> exists k, In k ForbiddenKeywordsRule.FORBIDDEN_KEYWORDS
                /\ PyStr.substring_of k (PyStr.lower (PyStr.strip s)).
Proof.
  rewrite <- PyStrFacts.existsb_contains_spec.
  unfold ForbiddenKeywordsRule.validate.
  destruct (existsb _ _); split; intros H;
    first [reflexivity | discriminate H | inversion H].
Qed.

Lemma forbidden_keyword_nonempty (k : string) :
  In k ForbiddenKeywordsRule.FORBIDDEN_KEYWORDS -> k <> EmptyString.
Proof.
  simpl. intros H.
  repeat (destruct H as [<- | H]; [discriminate |]). contradiction.
Qed.

Lemma forbidden_validate_depends_on_core (s t : string) :
  PyStr.lower (PyStr.strip s) = PyStr.lower (PyStr.strip t) ->
  ForbiddenKeywordsRule.validate s = ForbiddenKeywordsRule.validate t.
Proof.
  intros H. unfold ForbiddenKeywordsRule.validate. now rewrite H.
Qed.

(** X1. A refused query stays refused inside any surrounding text and
    under any change of letter case: if [validate s] fails and [s'] has the
    same lower-casing as [s], then [validate (a ++ s' ++ b)] fails. *)
Theorem forbidden_keywords_cannot_be_masked (s s' a b : string) :
  PyStr.lower s' = PyStr.lower s ->
  ForbiddenKeywordsRule.validate s
  = Ok (false,
        "Forbidden SQL keywords detected. Only SELECT queries are allowed.") ->
  ForbiddenKeywordsRule.validate (a ++ s' ++ b)
  = Ok (false,
        "Forbidden SQL keywords detected. Only SELECT queries are allowed.").
Proof.
  intros Hcase Hfail.
  apply forbidden_validate_fail_iff in Hfail.
  destruct Hfail as [k [Hin Hsub]].
  apply forbidden_validate_fail_iff. exists k. split; [exact Hin |].
  rewrite <- StripFacts.strip_lower, <- Hcase, StripFacts.strip_lower in Hsub.
  assert (Hne : PyStr.strip s' <> EmptyString).
  { apply StripFacts.lower_nonempty.
    exact (StripFacts.substring_of_nonempty k _
             (forbidden_keyword_nonempty k Hin) Hsub). }
  destruct (StripFacts.strip_inside_context a s' b Hne) as [x [y ->]].
  rewrite !StripFacts.lower_app.
  now apply StripFacts.substring_of_context.
Qed.

(** A refused statement hidden after an accepted one, in capitals. *)
Lemma forbidden_keywords_cannot_be_masked_witness :
  ForbiddenKeywordsRule.validate ("SELECT 1; " ++ "DROP TABLE t" ++ " -- x")
  = Ok (false,
        "Forbidden SQL keywords detected. Only SELECT queries are allowed.").
Proof.
  apply (forbidden_keywords_cannot_be_masked "drop table t");
    reflexivity.
Defined.

(** X2. The verdict reads the input up to letter case and up to white
    space around it: with [pre] and [post] white space and [s'] equal to
    [s] after lower-casing, [pre ++ s' ++ post] gets the verdict of [s]. *)
Theorem forbidden_keywords_case_and_margin (pre post s s' : string) :
  all_space pre = true ->
  all_space post = true ->
  PyStr.lower s' = PyStr.lower s ->
  ForbiddenKeywordsRule.validate (pre ++ s' ++ post)
  = ForbiddenKeywordsRule.validate s.
Proof.
  intros Hpre Hpost Hcase. apply forbidden_validate_depends_on_core.
  rewrite (StripFacts.strip_surrounded pre s' post Hpre Hpost).
  now rewrite <- !StripFacts.strip_lower, Hcase.
Qed.

(** A trailing keyword stays undetected whatever white space follows it
    and whatever its letter case. *)
Lemma forbidden_keywords_case_and_margin_witness :
  ForbiddenKeywordsRule.validate ("  " ++ "Select 1; DROP" ++ "   ")
  = ForbiddenKeywordsRule.validate "select 1; drop".
Proof.
  apply forbidden_keywords_case_and_margin; reflexivity.
Defined.

(** ** OnlySelectStatementsRule reads one token per statement *)

Lemma for_statements_heads (sts1 : list Statement) :
  forall sts2,
    statement_heads sts1 = statement_heads sts2 ->
    OnlySelectStatementsRule.for_statements sts1
    = OnlySelectStatementsRule.for_statements sts2.
Proof.
  induction sts1 as [|st1 sts1 IH]; intros [|st2 sts2] H;
    try discriminate; [reflexivity |].
  injection H as Hhead Hrest. simpl.
  destruct (token_first st1) as [t1|], (token_first st2) as [t2|];
    try discriminate; [| reflexivity].
  injection Hhead as ->.
  destruct (negb _); [reflexivity | now apply IH].
Qed.

(** X3. The statement rule looks at nothing but the first token of each
    statement: two inputs whose parses have the same number of statements
    and, statement by statement, the same normalized first token get the
    same verdict, whatever follows those tokens. *)
Theorem only_select_reads_heads_only
    (parse : string -> Result (list Statement))
    (sql1 sql2 : string) (sts1 sts2 : list Statement) :
  parse sql1 = Ok sts1 ->
  parse sql2 = Ok sts2 ->
  statement_heads sts1 = statement_heads sts2 ->
  OnlySelectStatementsRule.validate parse sql1
  = OnlySelectStatementsRule.validate parse sql2.
Proof.
  intros H1 H2 Hheads.
  rewrite (only_select_validate_ok parse sql1 sts1 H1).
  rewrite (only_select_validate_ok parse sql2 sts2 H2).
  destruct sts1 as [|a sts1], sts2 as [|b sts2]; try discriminate;
    [reflexivity |].
  now apply for_statements_heads.
Qed.

(** A SELECT that creates a table gets the verdict of a plain SELECT:
    both pass. *)
Lemma only_select_reads_heads_only_witness :
  OnlySelectStatementsRule.validate MoreSamples.parse MoreSamples.sql_into
  = OnlySelectStatementsRule.validate MoreSamples.parse Samples.sql_one
  /\ OnlySelectStatementsRule.validate MoreSamples.parse MoreSamples.sql_into
     = Ok (true, EmptyString).
Proof.
  split; [| reflexivity].
  apply (only_select_reads_heads_only MoreSamples.parse
           MoreSamples.sql_into Samples.sql_one
           [MoreSamples.stmt_into] [Samples.stmt_one]); reflexivity.
Defined.

(** ** WhitelistedTablesRule: missing names and the allowed list *)

Lemma body_at_no_candidate (self : WhitelistedTablesRule.t)
    (toks : list Token) (i : nat) :
  from_join_at toks i ->
  candidate_at toks i = None ->
  body_at self toks i
  = Some (false, "Could not identify table name after FROM/JOIN clause.").
Proof.
  intros Hfj Hc. unfold body_at.
  apply from_join_at_spec in Hfj. destruct Hfj as [tok [-> ->]].
  now rewrite scan_candidate_at, Hc.
Qed.

(** X4. The table rule fails closed on a FROM/JOIN keyword that nothing
    but white space follows: when the targets of the keywords before it
    are allowed, the verdict is the could-not-identify message, whatever
    the allowed names are. *)
Theorem whitelist_missing_table_name
    (parse : string -> Result (list Statement))
    (self : WhitelistedTablesRule.t) (sql : string)
    (st : Statement) (rest : list Statement) (i : nat) :
  parse sql = Ok (st :: rest) ->
  from_join_at (flatten st) i ->
  candidate_at (flatten st) i = None ->
  (forall j, j < i -> from_join_at (flatten st) j ->
             target_allowed self (flatten st) j) ->
  WhitelistedTablesRule.validate parse self sql
  = Ok (false, "Could not identify table name after FROM/JOIN clause.").
Proof.
  intros Hp Hfj Hc Hbefore.
  rewrite (whitelist_validate_ok parse self sql _ Hp).
  apply (for_tokens_first_failure self (flatten st) (flatten st) 0 i);
    [reflexivity | lia | now apply body_at_no_candidate |].
  intros k _ Hk. apply body_at_none_iff.
  - intros x Hx. exact (flatten_no_parenthesis st x Hx).
  - intros Hfk. now apply Hbefore.
Qed.

(** ["SELECT a FROM "] is refused even when [a] is an allowed name. *)
Lemma whitelist_missing_table_name_witness :
  WhitelistedTablesRule.validate MoreSamples.parse
    (WhitelistedTablesRule.init ["a"]) MoreSamples.sql_dangling
  = Ok (false, "Could not identify table name after FROM/JOIN clause.").
Proof.
  apply (whitelist_missing_table_name MoreSamples.parse
           (WhitelistedTablesRule.init ["a"]) MoreSamples.sql_dangling
           MoreSamples.stmt_dangling [] 4).
  - reflexivity.
  - exists (Samples.kw "FROM" "FROM"). repeat split. now left.
  - reflexivity.
  - intros j Hj [tok [Hn [Hk Hnorm]]]. exfalso.
    do 4 (destruct j as [|j];
          [simpl in Hn; injection Hn as <-;
           first [ discriminate Hk
                 | destruct Hnorm as [Hx | Hx]; discriminate Hx ] |]).
    lia.
Defined.

Lemma whitelist_pass_iff
    (parse : string -> Result (list Statement))
    (self : WhitelistedTablesRule.t) (sql : string) :
  WhitelistedTablesRule.validate parse self sql = Ok (true, EmptyString)
  <-> exists st rest,
        parse sql = Ok (st :: rest)
        /\ forall i, from_join_at (flatten st) i ->
                     target_allowed self (flatten st) i.
Proof.
  destruct (parse sql) as [[|st rest]|e] eqn:Hp.
  - rewrite (whitelist_validate_ok parse self sql _ Hp).
    split; [discriminate | intros (? & ? & H & _); discriminate].
  - rewrite (whitelist_validate_ok parse self sql _ Hp).
    assert (Hleaves : leaves_only (flatten st))
      by (intros x Hx; exact (flatten_no_parenthesis st x Hx)).
    split.
    + intros Hv. exists st, rest. split; [reflexivity |].
      intros i. apply body_at_none_iff; [exact Hleaves |].
      apply (for_tokens_pass_inv self (flatten st) (flatten st) 0
               EmptyString); [reflexivity | exact Hv | lia].
    + intros (st' & rest' & [= <- <-] & Hall).
      apply for_tokens_pass; [reflexivity |].
      intros k _. apply body_at_none_iff; [exact Hleaves | apply Hall].
  - rewrite (whitelist_validate_raise parse self sql e Hp).
    split; [discriminate | intros (? & ? & H & _); discriminate].
Qed.

(** X5. Allowing more names never turns a pass into a refusal, and the
    letter case of the configured names does not matter: if every name of
    [allowed] equals, after lower-casing, some name of [allowed'], then
    every query the rule built on [allowed] passes is passed by the rule
    built on [allowed']. *)
Theorem whitelist_monotone
    (parse : string -> Result (list Statement))
    (allowed allowed' : list string) (sql : string) :
  (forall x, In x allowed ->
             exists y, In y allowed' /\ PyStr.lower y = PyStr.lower x) ->
  WhitelistedTablesRule.validate parse
    (WhitelistedTablesRule.init allowed) sql = Ok (true, EmptyString) ->
  WhitelistedTablesRule.validate parse
    (WhitelistedTablesRule.init allowed') sql = Ok (true, EmptyString).
Proof.
  intros Hsub Hpass. apply whitelist_pass_iff in Hpass.
  destruct Hpass as (st & rest & Hp & Hall).
  apply whitelist_pass_iff. exists st, rest. split; [exact Hp |].
  intros i Hfj. destruct (Hall i Hfj) as [c [Hc Hin]].
  exists c. split; [exact Hc |].
  simpl in Hin |- *. apply in_map_iff in Hin.
  destruct Hin as [x [Hx Hinx]].
  destruct (Hsub x Hinx) as [y [Hiny Hy]].
  apply in_map_iff. exists y. split; [congruence | exact Hiny].
Qed.

(** The deployed list, written in capitals and extended, still passes the
    view query. *)
Lemma whitelist_monotone_witness :
  WhitelistedTablesRule.validate Samples.parse
    (WhitelistedTablesRule.init ["POSITIONS"; "CLIENT_INFO_VIEW"])
    Samples.sql_view
  = Ok (true, EmptyString).
Proof.
  apply (whitelist_monotone Samples.parse ["client_info_view"]).
  - intros x [<- | []]. exists "CLIENT_INFO_VIEW".
    split; [right; now left | reflexivity].
  - reflexivity.
Defined.

(** ** RuleExecutor: soundness, exceptions, composition, order *)

Lemma execute_rules_pass_inv (World : Type)
    (rules : list (@RuleExecutor.ValidationRule World)) (sql : string) :
  forall (w w' : World) (m : string),
    RuleExecutor.execute_rules rules sql w = (Ok (true, m), w') ->
    all_pass rules sql w w' /\ m = "All rules passed.".
Proof.
  induction rules as [|rule rules IH]; intros w w' m H; simpl in H.
  - injection H as <- <-. split; reflexivity.
  - destruct (rule sql w) as [[[b m0]|e] w1] eqn:Hr; [| discriminate].
    destruct b; simpl in H; [| discriminate].
    destruct (IH w1 w' m H) as [Hall Hm].
    split; [| exact Hm]. simpl. now exists m0, w1.
Qed.

(** X6. The executor never passes a query that some rule refuses: a
    passing result means every rule of the list was run in order and
    returned a passing verdict, and the diagnostic is then
    ['All rules passed.']. *)
Theorem execute_rules_pass_sound (World : Type)
    (rules : list (@RuleExecutor.ValidationRule World)) (sql : string)
    (w w' : World) (m : string) :
  RuleExecutor.execute_rules rules sql w = (Ok (true, m), w') ->
  all_pass rules sql w w' /\ m = "All rules passed.".
Proof. apply execute_rules_pass_inv. Qed.

(** Two counting rules that pass: the passing result shows both calls. *)
Lemma execute_rules_pass_sound_witness :
  all_pass
    [counting_rule (true, EmptyString); counting_rule (true, "fine")]
    "SELECT 1" 0 2
  /\ "All rules passed." = "All rules passed.".
Proof.
  apply (execute_rules_pass_sound nat
           [counting_rule (true, EmptyString); counting_rule (true, "fine")]
           "SELECT 1" 0 2 "All rules passed.").
  reflexivity.
Defined.

(** X7. The executor has no handler of its own: when the rules before
    some rule pass and that rule raises, the exception leaves
    [execute_rules] and no later rule runs. *)
Theorem execute_rules_propagates (World : Type)
    (pre post : list (@RuleExecutor.ValidationRule World))
    (rule : RuleExecutor.ValidationRule)
    (sql : string) (w w1 w2 : World) (e : string) :
  all_pass pre sql w w1 ->
  rule sql w1 = (Raise e, w2) ->
  RuleExecutor.execute_rules (pre ++ rule :: post)%list sql w
  = (Raise e, w2).
Proof.
  intros Hpre Hrule.
  rewrite (execute_rules_after_passing pre (rule :: post) sql w w1 Hpre).
  simpl. now rewrite Hrule.
Qed.

(** A rule that raises after one passing rule; the third is not called. *)
Lemma execute_rules_propagates_witness :
  RuleExecutor.execute_rules
    [counting_rule (true, EmptyString);
     (fun _ calls => (Raise "boom", S calls));
     counting_rule (false, "never reached")] "SELECT 1" 0
  = (Raise "boom", 2).
Proof.
  apply (execute_rules_propagates nat
           [counting_rule (true, EmptyString)]
           [counting_rule (false, "never reached")]
           (fun _ calls => (Raise "boom", S calls)) "SELECT 1" 0 1 2 "boom").
  - exists EmptyString, 1. split; reflexivity.
  - reflexivity.
Defined.

(** X8. Running a concatenated rule list is running its first part and,
    only if that part passes, the second part from the world the first
    left; a refusal or an exception of the first part is the result. *)
Theorem execute_rules_app (World : Type)
    (rules1 rules2 : list (@RuleExecutor.ValidationRule World))
    (sql : string) (w : World) :
  RuleExecutor.execute_rules (rules1 ++ rules2)%list sql w
  = match RuleExecutor.execute_rules rules1 sql w with
    | (Ok (true, _), w1) => RuleExecutor.execute_rules rules2 sql w1
    | other => other
    end.
Proof.
  revert w. induction rules1 as [|rule rules1 IH]; intros w; simpl.
  - reflexivity.
  - destruct (rule sql w) as [[[b m]|e] w1]; [| reflexivity].
    destruct b; simpl; [apply IH | reflexivity].
Qed.

Lemma builtin_exec_pass_iff (World : Type)
    (parse : string -> Result (list Statement))
    (rules : list RuleExecutor.BuiltinRule) (sql : string) (w : World) :
  RuleExecutor.execute_rules (map (RuleExecutor.builtin parse) rules) sql w
  = (Ok (true, "All rules passed."), w)
  <-> Forall
        (fun r => exists m,
             RuleExecutor.builtin parse r sql w = (Ok (true, m), w))
        rules.
Proof.
  induction rules as [|r rules IH].
  - split; [constructor | reflexivity].
  - cbn [map RuleExecutor.execute_rules].
    destruct (RuleExecutor.builtin parse r sql w) as [[[b m]|e] w1] eqn:Hr.
    + assert (w1 = w) as ->.
      { unfold RuleExecutor.builtin, RuleExecutor.pure_rule in Hr.
        now injection Hr. }
      destruct b; simpl.
      * rewrite IH. split.
        -- intros H. constructor; [now exists m | exact H].
        -- intros H. now inversion H.
      * split; [discriminate |].
        intros H. inversion H as [|? ? [m' Hm'] _]. congruence.
    + split; [discriminate |].
      intros H. inversion H as [|? ? [m' Hm'] _]. congruence.
Qed.

(** X9. For the three rules of this module the order of the list decides
    the diagnostic only: two lists that are permutations of each other
    accept the same queries. *)
Theorem builtin_order_irrelevant (World : Type)
    (parse : string -> Result (list Statement))
    (rules rules' : list RuleExecutor.BuiltinRule)
    (sql : string) (w : World) :
  Permutation rules rules' ->
  exists b m m',
    RuleExecutor.execute_rules
      (map (RuleExecutor.builtin parse) rules) sql w = (Ok (b, m), w)
    /\ RuleExecutor.execute_rules
         (map (RuleExecutor.builtin parse) rules') sql w = (Ok (b, m'), w).
Proof.
  intros Hperm.
  destruct (execute_builtin_never_raises parse (builtin_never_raises parse)
              rules sql w) as [[b m] H].
  destruct (execute_builtin_never_raises parse (builtin_never_raises parse)
              rules' sql w) as [[b' m'] H'].
  exists b, m, m'. split; [exact H |].
  rewrite H'. do 2 f_equal. f_equal.
  destruct b, b'; try reflexivity; exfalso.
  - destruct (execute_rules_pass_inv World _ sql w w m H) as [_ ->].
    apply builtin_exec_pass_iff in H.
    apply (Permutation_Forall Hperm) in H.
    apply builtin_exec_pass_iff in H. congruence.
  - destruct (execute_rules_pass_inv World _ sql w w m' H') as [_ ->].
    apply builtin_exec_pass_iff in H'.
    apply (Permutation_Forall (Permutation_sym Hperm)) in H'.
    apply builtin_exec_pass_iff in H'. congruence.
Qed.

(** The deployed rules in reverse order refuse the hidden-table query
    too. *)
Lemma builtin_order_irrelevant_witness :
  exists b m m',
    RuleExecutor.execute_rules (World := unit)
      (map (RuleExecutor.builtin Samples.parse)
         [RuleExecutor.ForbiddenKeywords; RuleExecutor.OnlySelectStatements;
          RuleExecutor.WhitelistedTables
            (WhitelistedTablesRule.init ["positions"])])
      Samples.sql_secret tt = (Ok (b, m), tt)
    /\ RuleExecutor.execute_rules (World := unit)
         (map (RuleExecutor.builtin Samples.parse)
            [RuleExecutor.WhitelistedTables
               (WhitelistedTablesRule.init ["positions"]);
             RuleExecutor.OnlySelectStatements;
             RuleExecutor.ForbiddenKeywords])
         Samples.sql_secret tt = (Ok (b, m'), tt).
Proof.
  apply builtin_order_irrelevant.
  apply Permutation_rev.
Defined.

(* ------------------------------------------------------------------ *)
(** * Properties of the services *)

(** ** Slices and suffixes *)

Module SliceFacts.
Import PySlice.

Lemma length_app (a b : string) :
  String.length (a ++ b) = String.length a + String.length b.
Proof. induction a as [|c a IH]; simpl; [reflexivity | now rewrite IH]. Qed.

Lemma length_lower (s : string) :
  String.length (PyStr.lower s) = String.length s.
Proof. induction s as [|c s IH]; simpl; [reflexivity | now rewrite IH]. Qed.

Lemma drop_app (a b : string) : drop (String.length a) (a ++ b) = b.
Proof. induction a as [|c a IH]; simpl; [now destruct b | exact IH]. Qed.

Lemma take_app (a b : string) : take (String.length a) (a ++ b) = a.
Proof.
  induction a as [|c a IH]; simpl; [now destruct b | now rewrite IH].
Qed.

Lemma endswith_app (x suffix : string) : endswith suffix (x ++ suffix) = true.
Proof.
  unfold endswith. rewrite length_app.
  replace (String.length x + String.length suffix - String.length suffix)
    with (String.length x) by lia.
  rewrite drop_app, String.eqb_refl, andb_true_r.
  apply Nat.leb_le. lia.
Qed.

(** Cutting a fence of [String.length opening] characters in front and a
    closing fence behind leaves what stands between them. *)
Lemma slice_fenced (opening body closing : string) :
  slice (String.length opening) (String.length closing)
    (opening ++ body ++ closing) = body.
Proof.
  unfold slice. rewrite drop_app, !length_app.
  replace (String.length opening
           + (String.length body + String.length closing)
           - String.length closing - String.length opening)
    with (String.length body) by lia.
  apply take_app.
Qed.

Lemma startswith_app (p x : string) : PyStr.startswith p (p ++ x) = true.
Proof. apply PyStrFacts.startswith_spec. now exists x. Qed.

Lemma startswith_trans (p q s : string) :
  PyStr.startswith p q = true -> PyStr.startswith q s = true ->
  PyStr.startswith p s = true.
Proof.
  rewrite !PyStrFacts.startswith_spec. intros [x ->] [y ->].
  exists (x ++ y). now rewrite StripFacts.app_assoc_str.
Qed.

End SliceFacts.

(** ** The markdown clean-up of the generated SQL *)

Lemma sql_after_fence (x : string) :
  PyStr.startswith "sql" x = false ->
  PyStr.startswith "```sql" ("```" ++ x ++ "```") = false.
Proof.
  intros H. cbn.
  destruct x as [|a [|b [|c x]]]; cbn in H |- *;
    rewrite ?andb_false_r; try reflexivity; exact H.
Qed.

(** X10. Unwrapping a fenced reply gives the trimmed text between the
    fences: for an opening fence that reads [```sql] in any letter case,
    and for a bare [```] fence whose content does not itself begin with
    [sql]. *)
Theorem clean_markdown_unwraps (body : string) :
  (forall opening,
      PyStr.lower opening = "```sql" ->
      GeminiService.clean_markdown (opening ++ body ++ "```")
      = PyStr.strip body)
  /\ (PyStr.startswith "sql" (PyStr.lower body) = false ->
      GeminiService.clean_markdown ("```" ++ body ++ "```")
      = PyStr.strip body).
Proof.
  split.
  - intros opening Hop. unfold GeminiService.clean_markdown.
    rewrite !StripFacts.lower_app, Hop.
    rewrite SliceFacts.startswith_app.
    rewrite <- StripFacts.app_assoc_str, SliceFacts.endswith_app. simpl andb.
    cbv iota. f_equal.
    assert (Hlen : String.length opening = 6).
    { rewrite <- SliceFacts.length_lower, Hop. reflexivity. }
    rewrite <- Hlen.
    exact (SliceFacts.slice_fenced opening body "```").
  - intros Hbody. unfold GeminiService.clean_markdown.
    rewrite !StripFacts.lower_app.
    change (PyStr.lower "```") with "```".
    rewrite (sql_after_fence _ Hbody). simpl andb. cbv iota.
    change (String "`" (String "`" (String "`" (PyStr.lower body ++ "```"))))
      with (("```" ++ PyStr.lower body) ++ "```").
    rewrite SliceFacts.endswith_app. f_equal.
    exact (SliceFacts.slice_fenced "```" body "```").
Qed.


(** A reply fenced with [```SQL] and one fenced with a bare [```]: both
    give the statement alone. *)
Lemma clean_markdown_unwraps_witness :
  GeminiService.clean_markdown
    ("```SQL" ++ (PySlice.nl ++ "SELECT 1" ++ PySlice.nl) ++ "```")
  = "SELECT 1"
  /\ GeminiService.clean_markdown ("```" ++ " SELECT 1 " ++ "```")
     = "SELECT 1".
Proof.
  split.
  - exact (eq_trans
             (proj1 (clean_markdown_unwraps
                       (PySlice.nl ++ "SELECT 1" ++ PySlice.nl))
                "```SQL" eq_refl)
             eq_refl).
  - exact (eq_trans
             (proj2 (clean_markdown_unwraps " SELECT 1 ") eq_refl)
             eq_refl).
Defined.

Lemma clean_markdown_trimmed (text : string) :
  PyStr.strip (GeminiService.clean_markdown (PyStr.strip text))
  = GeminiService.clean_markdown (PyStr.strip text).
Proof.
  unfold GeminiService.clean_markdown.
  destruct (_ && _); [apply StripFacts.strip_idem |].
  destruct (_ && _); apply StripFacts.strip_idem.
Qed.

Lemma clean_markdown_unfenced (s : string) :
  PyStr.startswith "```" (PyStr.lower s) = false ->
  GeminiService.clean_markdown s = s.
Proof.
  intros H. unfold GeminiService.clean_markdown. rewrite H.
  destruct (PyStr.startswith "```sql" (PyStr.lower s)) eqn:E;
    [| reflexivity].
  rewrite (SliceFacts.startswith_trans "```" "```sql" _ eq_refl E) in H.
  discriminate.
Qed.

(** X11. The SQL that [get_gemini_sql_response] returns never has white
    space around it, and it is the trimmed reply itself whenever that does
    not open with a [```] fence. *)
Theorem sql_response_trimmed {genai : GeminiService.Genai}
    (g : GeminiService.Globals) (user_question db_schema sql : string)
    (trace : list Effect) :
  GeminiService.get_gemini_sql_response g user_question db_schema
  = (Returns sql, trace) ->
  PyStr.strip sql = sql
  /\ exists session text,
      GeminiService._gemini_chat_sql_session g = Some session
      /\ GeminiService.send_message_async session
           (GeminiService.prompt_for_sql_generation user_question db_schema)
         = Returns text
      /\ (PyStr.startswith "```" (PyStr.lower (PyStr.strip text)) = false ->
          sql = PyStr.strip text).
Proof.
  unfold GeminiService.get_gemini_sql_response.
  destruct (GeminiService._gemini_chat_sql_session g) as [session|];
    [| discriminate].
  destruct (GeminiService.send_message_async session _) as [text|e] eqn:Hs;
    [| discriminate].
  intros [= <- <-]. split; [apply clean_markdown_trimmed |].
  exists session, text. repeat split; [exact Hs |].
  intros H. now apply clean_markdown_unfenced.
Qed.

(** A model that pads its reply with blanks and line feeds. *)
Lemma sql_response_trimmed_witness :
  PyStr.strip "SELECT 1" = "SELECT 1".
Proof.
  exact (proj1
           (sql_response_trimmed
              (genai := ServiceSamples.genai
                          (fun _ => Returns ("  SELECT 1 " ++ PySlice.nl)))
              (ServiceSamples.loaded
                 (fun _ => Returns ("  SELECT 1 " ++ PySlice.nl)))
              "how many" "Table: t" "SELECT 1"
              [SendSql
                 (GeminiService.prompt_for_sql_generation "how many"
                    "Table: t")]
              eq_refl)).
Defined.

(** ** Initialization of the language-model module *)

(** X12. [initialize_gemini_model] keeps the globals all unset or all set:
    from such globals it returns [True] exactly when the model and both
    chat sessions are set afterwards, and [False] exactly when all three
    are unset; once the model is set, a further call changes nothing and
    returns [True], whatever key it is given. *)
Theorem initialize_all_or_nothing {genai : GeminiService.Genai}
    (g : GeminiService.Globals) (api_key : option string) :
  coherent g ->
  let r := GeminiService.initialize_gemini_model g api_key in
  coherent (snd r)
  /\ (fst r = true <->
      GeminiService._gemini_chat_sql_session (snd r) <> None
      /\ GeminiService._gemini_chat_general_session (snd r) <> None)
  /\ (fst r = false <-> snd r = GeminiService.unloaded)
  /\ (GeminiService._gemini_model g <> None -> r = (true, g)).
Proof.
  intros Hco. unfold GeminiService.initialize_gemini_model.
  destruct g as [model sql_session general_session]. simpl.
  destruct Hco as [(Hm & Hs & Hg) | (Hm & Hs & Hg)]; simpl in *.
  - subst. destruct (GeminiService.falsy api_key);
      [| destruct (GeminiService.build_sessions _) as [[[m s1] s2]|e]];
      simpl; repeat split; intros; simpl in *;
      solve [ left; repeat split
            | right; repeat split; discriminate
            | discriminate
            | congruence
            | tauto
            | match goal with
              | H : _ /\ _ |- _ => destruct H; congruence
              end ].
  - destruct model as [m|]; [| contradiction]. simpl.
    repeat split; intros; simpl in *;
      solve [ right; repeat split; assumption
            | assumption
            | discriminate
            | match goal with
              | H : _ = GeminiService.unloaded |- _ => inversion H; congruence
              end ].
Qed.

(** A first call with a key sets everything; a call without a key leaves
    the module unloaded. *)
Lemma initialize_all_or_nothing_witness :
  fst (GeminiService.initialize_gemini_model
         (genai := ServiceSamples.genai (fun _ => Returns "ok"))
         GeminiService.unloaded (Some "key")) = true
  /\ snd (GeminiService.initialize_gemini_model
            (genai := ServiceSamples.genai (fun _ => Returns "ok"))
            GeminiService.unloaded None) = GeminiService.unloaded.
Proof.
  split.
  - reflexivity.
  - apply (proj1 (proj2 (proj2
             (initialize_all_or_nothing
                (genai := ServiceSamples.genai (fun _ => Returns "ok"))
                GeminiService.unloaded None
                (or_introl (conj eq_refl (conj eq_refl eq_refl))))))).
    reflexivity.
Defined.

(** ** The database helper *)

Ltac db_cases engine sql :=
  unfold Database.execute_sql_query, Database.run_query;
  destruct engine as [eng|];
  [ destruct (Database.connect eng) as [connection|e0];
    [ destruct (Database.execute connection sql) as [result|e1];
      [ destruct (Database.starts_with_select sql) eqn:Hsel; simpl negb;
        cbv iota;
        [ destruct (Database.keys result) as [cols|e2];
          [ destruct (Database.fetchall result) as [fetched|e3] | ]
        | destruct (Database.commit connection) as [u|e2];
          [ | destruct (Database.rollback connection) as [u|e3] ] ]
      | destruct (Database.starts_with_select sql) eqn:Hsel; simpl negb;
        cbv iota;
        [ | destruct (Database.rollback connection) as [u|e3] ] ]
    | ]
  | ].

(** X13. How [execute_sql_query] treats the transaction: it runs the
    given statement and no other; it commits or rolls back only a
    statement that does not start with [select], and reads rows only of
    one that does; a statement of the first kind that returns was
    committed, and one that was run and did not return was rolled back;
    without an engine nothing is called. *)
Theorem execute_sql_query_transactions {sqlalchemy : Database.SqlAlchemy}
    (engine : option Database.Engine) (sql : string)
    (r : Outcome Database.DbResults) (trace : list Effect) :
  Database.execute_sql_query engine sql = (r, trace) ->
  (forall q, In (DbExecute q) trace -> q = sql)
  /\ (In DbCommit trace \/ In DbRollback trace ->
      Database.starts_with_select sql = false)
  /\ (In DbFetch trace -> Database.starts_with_select sql = true)
  /\ (forall d, r = Returns d ->
                Database.starts_with_select sql = false ->
                In DbCommit trace)
  /\ (forall e, r = Raises e ->
                Database.starts_with_select sql = false ->
                In (DbExecute sql) trace ->
                In DbRollback trace)
  /\ (engine = None -> trace = []).
Proof.
  db_cases engine sql; intros [= <- <-]; simpl;
    repeat split; intros; simpl in *;
    repeat match goal with
           | H : _ \/ _ |- _ => destruct H
           | H : False |- _ => contradiction
           end;
    first [ congruence | tauto | discriminate ].
Qed.

(** An insert that the sample database runs is committed; a select is
    only read. *)
Lemma execute_sql_query_transactions_witness :
  In DbCommit
    (snd (Database.execute_sql_query
            (sqlalchemy := ServiceSamples.sqlalchemy (fun _ => Returns tt))
            (Some tt) "INSERT INTO positions VALUES (1)"))
  /\ Database.starts_with_select "  Select 1" = true.
Proof.
  split.
  - apply (proj1 (proj2 (proj2 (proj2
             (execute_sql_query_transactions
                (sqlalchemy :=
                   ServiceSamples.sqlalchemy (fun _ => Returns tt))
                (Some tt) "INSERT INTO positions VALUES (1)" _ _ eq_refl))))
             _ eq_refl eq_refl).
  - apply (proj1 (proj2 (proj2
             (execute_sql_query_transactions
                (sqlalchemy :=
                   ServiceSamples.sqlalchemy (fun _ => Returns tt))
                (Some tt) "  Select 1" _ _ eq_refl)))).
    simpl. tauto.
Defined.

Lemma run_query_shape {sqlalchemy : Database.SqlAlchemy}
    (connection : Database.Connection) (sql : string)
    (d : Database.DbResults) (trace : list Effect) :
  Database.run_query connection sql = (Returns d, trace) ->
  if Database.starts_with_select sql
  then Database.message d = None
       /\ Database.columns d <> None /\ Database.rows d <> None
  else Database.message d <> None
       /\ Database.columns d = None /\ Database.rows d = None.
Proof.
  unfold Database.run_query.
  destruct (Database.execute connection sql) as [result|e]; [| discriminate].
  destruct (Database.starts_with_select sql); simpl negb; cbv iota.
  - destruct (Database.keys result) as [cols|e]; [| discriminate].
    destruct (Database.fetchall result) as [fetched|e]; [| discriminate].
    intros [= <- _]. simpl. repeat split; discriminate.
  - destruct (Database.commit connection) as [u|e]; [| discriminate].
    intros [= <- _]. simpl. repeat split; discriminate.
Qed.

(** X14. What [execute_sql_query] hands back.  Without an engine it
    raises the not-established [ValueError].  When opening the connection
    and rolling back do not raise, every exception of the function is the
    database-error [ValueError], which quotes the cause and the statement.
    A returned dictionary holds [columns] and [rows] and no [message] for a
    statement that starts with [select], and only [message] otherwise. *)
Theorem execute_sql_query_results {sqlalchemy : Database.SqlAlchemy}
    (engine : option Database.Engine) (sql : string)
    (r : Outcome Database.DbResults) (trace : list Effect) :
  Database.execute_sql_query engine sql = (r, trace) ->
  (engine = None ->
   r = Raises
         (ValueError
            "Database connection not established. Cannot execute query."))
  /\ (forall eng connection e,
         engine = Some eng ->
         Database.connect eng = Returns connection ->
         (forall e', Database.rollback connection <> Raises e') ->
         r = Raises e ->
         exists cause,
           e = ValueError
                 ("Database error executing query: " ++ exn_str cause
                  ++ ". Query was: '" ++ sql ++ "'"))
  /\ (forall d,
         r = Returns d ->
         if Database.starts_with_select sql
         then Database.message d = None
              /\ Database.columns d <> None /\ Database.rows d <> None
         else Database.message d <> None
              /\ Database.columns d = None /\ Database.rows d = None).
Proof.
  intros H. unfold Database.execute_sql_query in H. split; [| split].
  - intros ->. now injection H as <- _.
  - intros eng connection e -> Hconn Hroll ->. rewrite Hconn in H.
    destruct (Database.run_query connection sql) as [[d|e1] tr];
      [discriminate |].
    destruct (negb (Database.starts_with_select sql)).
    + destruct (Database.rollback connection) as [u|e'] eqn:Hr.
      * injection H as <- _. now exists e1.
      * exfalso. exact (Hroll e' eq_refl).
    + injection H as <- _. now exists e1.
  - intros d ->. destruct engine as [eng|]; [| discriminate].
    destruct (Database.connect eng) as [connection|e0]; [| discriminate].
    destruct (Database.run_query connection sql) as [[d'|e1] tr] eqn:Hrun.
    + injection H as <- _. exact (run_query_shape connection sql d' tr Hrun).
    + destruct (negb (Database.starts_with_select sql));
        [destruct (Database.rollback connection) |]; discriminate.
Qed.

(** A failing statement on the sample database. *)
Lemma execute_sql_query_results_witness :
  exists cause,
    ValueError
      "Database error executing query: no such table. Query was: 'SELECT * FROM nowhere'"
    = ValueError
        ("Database error executing query: " ++ exn_str cause
         ++ ". Query was: '" ++ "SELECT * FROM nowhere" ++ "'").
Proof.
  apply (proj1 (proj2
           (execute_sql_query_results
              (sqlalchemy :=
                 ServiceSamples.sqlalchemy
                   (fun _ => Raises (OtherError "no such table")))
              (Some tt) "SELECT * FROM nowhere" _ _ eq_refl))
           tt tt _ eq_refl eq_refl).
  - discriminate.
  - reflexivity.
Defined.


(** ** The message handler *)

Lemma sql_response_trace {genai : GeminiService.Genai}
    (g : GeminiService.Globals) (q schema : string)
    (r : Outcome string) (trace : list Effect) :
  GeminiService.get_gemini_sql_response g q schema = (r, trace) ->
  trace = []
  \/ trace = [SendSql (GeminiService.prompt_for_sql_generation q schema)].
Proof.
  unfold GeminiService.get_gemini_sql_response.
  destruct (GeminiService._gemini_chat_sql_session g) as [session|].
  - destruct (GeminiService.send_message_async session _);
      intros [= _ <-]; now right.
  - intros [= _ <-]. now left.
Qed.

Lemma chat_response_trace {genai : GeminiService.Genai}
    (g : GeminiService.Globals) (prompt text : string)
    (trace : list Effect) :
  GeminiService.get_gemini_chat_response g prompt = (text, trace) ->
  trace = [] \/ trace = [SendChat prompt].
Proof.
  unfold GeminiService.get_gemini_chat_response.
  destruct (GeminiService._gemini_chat_general_session g) as [session|].
  - destruct (GeminiService.send_message_async session _);
      intros [= _ <-]; now right.
  - intros [= _ <-]. now left.
Qed.

Lemma db_trace_no_emit {sqlalchemy : Database.SqlAlchemy}
    (engine : option Database.Engine) (sql : string)
    (r : Outcome Database.DbResults) (trace : list Effect) :
  Database.execute_sql_query engine sql = (r, trace) ->
  Forall (fun eff => is_emit eff = false) trace.
Proof.
  db_cases engine sql; intros [= _ <-]; simpl; repeat constructor.
Qed.

Lemma on_exception_emits (sid : string) (e : Exn) :
  exists content, Main.on_exception sid e = [Emit "error" content sid].
Proof. destruct e; simpl; eauto. Qed.

Lemma deployed_rules_pass (parse : string -> Result (list Statement))
    (sql m : string) (w' : unit) :
  RuleExecutor.execute_rules (map (RuleExecutor.builtin parse) Main.rules)
    sql tt = (Ok (true, m), w') ->
  ForbiddenKeywordsRule.validate sql = Ok (true, EmptyString)
  /\ OnlySelectStatementsRule.validate parse sql = Ok (true, EmptyString)
  /\ WhitelistedTablesRule.validate parse
       (WhitelistedTablesRule.init
          ["client_academic_data"; "client_info_view"; "client_positions";
           "positions"]) sql
     = Ok (true, EmptyString).
Proof.
  intros H. apply execute_rules_pass_inv in H. destruct H as [H _].
  simpl in H.
  destruct H as (m1 & w1 & H1 & m2 & w2 & H2 & m3 & w3 & H3 & _).
  unfold RuleExecutor.builtin, RuleExecutor.pure_rule in H1, H2, H3.
  injection H1 as H1 _. injection H2 as H2 _. injection H3 as H3 _.
  pose proof (builtin_verdict_invariant parse RuleExecutor.ForbiddenKeywords
                sql true m1 H1) as [_ E1].
  pose proof (builtin_verdict_invariant parse
                RuleExecutor.OnlySelectStatements sql true m2 H2) as [_ E2].
  pose proof (builtin_verdict_invariant parse
                (RuleExecutor.WhitelistedTables _) sql true m3 H3) as [_ E3].
  rewrite (E1 eq_refl) in H1. rewrite (E2 eq_refl) in H2.
  rewrite (E3 eq_refl) in H3. repeat split; assumption.
Qed.

Lemma asked_not_db (asked : list Effect)
    (p : string) (eff : Effect) :
  asked = [] \/ asked = [SendSql p] \/ asked = [SendChat p] ->
  In eff asked -> is_db_effect eff = true -> False.
Proof.
  intros [-> | [-> | ->]] Hin Hdb; simpl in Hin;
    repeat (destruct Hin as [<- | Hin]; [discriminate |]); contradiction.
Qed.

Lemma execute_sql_query_runs_given {sqlalchemy : Database.SqlAlchemy}
    (engine : option Database.Engine) (sql : string)
    (r : Outcome Database.DbResults) (trace : list Effect) (q : string) :
  Database.execute_sql_query engine sql = (r, trace) ->
  In (DbExecute q) trace -> q = sql.
Proof.
  db_cases engine sql; intros [= <- <-]; simpl; intros;
    repeat match goal with
           | H : _ \/ _ |- _ => destruct H
           | H : False |- _ => contradiction
           end;
    congruence.
Qed.

(** X15. The handler touches the database only with SQL that each of the
    three rules accepted: whenever its effects include a database call,
    there is one statement that passed the keyword rule, the statement
    rule and the table rule with the deployed list, and nothing else is
    executed. *)
Theorem handler_db_only_after_validation
    {genai : GeminiService.Genai} {sqlalchemy : Database.SqlAlchemy}
    (env : Main.Env) (sid message : string) (eff : Effect) :
  In eff (Main.handle_client_message env sid message) ->
  is_db_effect eff = true ->
  exists sql,
    ForbiddenKeywordsRule.validate sql = Ok (true, EmptyString)
    /\ OnlySelectStatementsRule.validate (Main.parse env) sql
       = Ok (true, EmptyString)
    /\ WhitelistedTablesRule.validate (Main.parse env)
         (WhitelistedTablesRule.init
            ["client_academic_data"; "client_info_view"; "client_positions";
             "positions"]) sql
       = Ok (true, EmptyString)
    /\ forall q,
        In (DbExecute q) (Main.handle_client_message env sid message) ->
        q = sql.
Proof.
  unfold Main.handle_client_message, Main.chat_branch.
  assert (Hemit : forall c1 c2 c3, In eff [Emit c1 c2 c3] ->
                                   is_db_effect eff = true -> False).
  { intros c1 c2 c3 [<- | []]. discriminate. }
  assert (Hchat : forall prompt,
             In eff
               (let (text, asked) :=
                  GeminiService.get_gemini_chat_response (Main.gemini env)
                    prompt in
                if PyStr.contains "Sorry, Gemini model is not available" text
                then (asked ++ [Emit "error" text sid])%list
                else (asked ++ [Emit "chat" ("AI: " ++ text) sid])%list) ->
             is_db_effect eff = true -> False).
  { intros prompt.
    destruct (GeminiService.get_gemini_chat_response _ prompt)
      as [text asked] eqn:Hc.
    apply chat_response_trace in Hc.
    destruct (PyStr.contains _ text); intros Hin Hdb;
      apply in_app_or in Hin; destruct Hin as [Hin | Hin];
      try exact (Hemit _ _ _ Hin Hdb);
      apply (asked_not_db asked prompt eff); auto; tauto. }
  destruct (PyStr.startswith "/sql" _).
  - destruct (Main.engine env) as [eng|] eqn:Heng.
    + unfold Main.sql_branch.
      destruct (GeminiService.get_gemini_sql_response _ _ _)
        as [[generated_sql|e] asked] eqn:Hg.
      * apply sql_response_trace in Hg.
        destruct (RuleExecutor.execute_rules _ generated_sql tt)
          as [[[is_valid msg]|e] w'] eqn:He; simpl fst; cbv iota.
        -- destruct is_valid; simpl negb; cbv iota.
           ++ destruct (Database.execute_sql_query _ generated_sql)
                as [[db_results|e] ran] eqn:Hdbq.
              ** intros _ _. exists generated_sql.
                 destruct (deployed_rules_pass _ _ _ _ He) as (H1 & H2 & H3).
                 repeat split; try assumption.
                 intros q Hq. apply in_app_or in Hq.
                 destruct Hq as [Hq | Hq].
                 { destruct Hg as [-> | ->]; simpl in Hq; [contradiction |].
                   destruct Hq as [Hq | []]. discriminate. }
                 apply in_app_or in Hq. destruct Hq as [Hq | Hq].
                 { exact (execute_sql_query_runs_given _ _ _ _ q Hdbq Hq). }
                 destruct Hq as [Hq | []]. discriminate.
              ** intros _ _. exists generated_sql.
                 destruct (deployed_rules_pass _ _ _ _ He) as (H1 & H2 & H3).
                 repeat split; try assumption.
                 intros q Hq. apply in_app_or in Hq.
                 destruct Hq as [Hq | Hq].
                 { destruct Hg as [-> | ->]; simpl in Hq; [contradiction |].
                   destruct Hq as [Hq | []]. discriminate. }
                 apply in_app_or in Hq. destruct Hq as [Hq | Hq].
                 { exact (execute_sql_query_runs_given _ _ _ _ q Hdbq Hq). }
                 destruct (on_exception_emits sid e) as [c Hc].
                 rewrite Hc in Hq. destruct Hq as [Hq | []]. discriminate.
           ++ intros Hin Hdb. exfalso.
              apply in_app_or in Hin. destruct Hin as [Hin | Hin].
              ** apply (asked_not_db asked
                          (GeminiService.prompt_for_sql_generation
                             (PyStr.strip (PySlice.drop 4 message))
                             (Main.DB_SCHEMA_DESCRIPTION env)) eff);
                   auto; tauto.
              ** exact (Hemit _ _ _ Hin Hdb).
        -- intros Hin Hdb. exfalso.
           apply in_app_or in Hin. destruct Hin as [Hin | Hin].
           ++ apply (asked_not_db asked
                       (GeminiService.prompt_for_sql_generation
                          (PyStr.strip (PySlice.drop 4 message))
                          (Main.DB_SCHEMA_DESCRIPTION env)) eff);
                auto; tauto.
           ++ exact (Hemit _ _ _ Hin Hdb).
      * apply sql_response_trace in Hg.
        intros Hin Hdb. exfalso.
        apply in_app_or in Hin. destruct Hin as [Hin | Hin].
        -- apply (asked_not_db asked
                    (GeminiService.prompt_for_sql_generation
                       (PyStr.strip (PySlice.drop 4 message))
                       (Main.DB_SCHEMA_DESCRIPTION env)) eff);
             auto; tauto.
        -- destruct (on_exception_emits sid e) as [c Hc].
           rewrite Hc in Hin. exact (Hemit _ _ _ Hin Hdb).
    + intros Hin Hdb. exfalso. exact (Hemit _ _ _ Hin Hdb).
  - destruct (PyStr.startswith "/ai" _); intros Hin Hdb; exfalso;
      exact (Hchat _ Hin Hdb).
Qed.

(** The sample services answer with a fenced query on the view: the
    statement that is run is the one the three rules accepted. *)
Lemma handler_db_only_after_validation_witness :
  exists sql,
    ForbiddenKeywordsRule.validate sql = Ok (true, EmptyString)
    /\ OnlySelectStatementsRule.validate Samples.parse sql
       = Ok (true, EmptyString)
    /\ WhitelistedTablesRule.validate Samples.parse
         (WhitelistedTablesRule.init
            ["client_academic_data"; "client_info_view"; "client_positions";
             "positions"]) sql
       = Ok (true, EmptyString)
    /\ forall q,
        In (DbExecute q)
          (Main.handle_client_message
             (ServiceSamples.env
                (fun _ =>
                   Returns
                     ("```sql" ++ PySlice.nl ++ Samples.sql_view
                      ++ PySlice.nl ++ "```"))
                (fun _ => Returns tt))
             "room1" "/sql list the clients") ->
        q = sql.
Proof.
  apply (handler_db_only_after_validation
           (ServiceSamples.env
              (fun _ =>
                 Returns
                   ("```sql" ++ PySlice.nl ++ Samples.sql_view
                    ++ PySlice.nl ++ "```"))
              (fun _ => Returns tt))
           "room1" "/sql list the clients" (DbExecute Samples.sql_view)).
  - vm_compute. right. right. left. reflexivity.
  - reflexivity.
Defined.

Lemma asked_no_emit (asked : list Effect) (p : string) :
  asked = [] \/ asked = [SendSql p] \/ asked = [SendChat p] ->
  Forall (fun eff => is_emit eff = false) asked.
Proof. intros [-> | [-> | ->]]; repeat constructor. Qed.

Lemma chat_branch_replies_once
    {genai : GeminiService.Genai} {sqlalchemy : Database.SqlAlchemy}
    (env : Main.Env) (sid prompt : string) :
  exists pre event content,
    Main.chat_branch env sid prompt = (pre ++ [Emit event content sid])%list
    /\ Forall (fun eff => is_emit eff = false) pre.
Proof.
  unfold Main.chat_branch.
  destruct (GeminiService.get_gemini_chat_response _ prompt)
    as [text asked] eqn:Hc.
  apply chat_response_trace in Hc.
  assert (Hno : Forall (fun eff => is_emit eff = false) asked)
    by (apply (asked_no_emit asked prompt); tauto).
  destruct (PyStr.contains _ text); eauto.
Qed.

Lemma sql_branch_replies_once
    {genai : GeminiService.Genai} {sqlalchemy : Database.SqlAlchemy}
    (env : Main.Env) (sid user_question : string) :
  exists pre event content,
    Main.sql_branch env sid user_question
    = (pre ++ [Emit event content sid])%list
    /\ Forall (fun eff => is_emit eff = false) pre.
Proof.
  unfold Main.sql_branch.
  destruct (GeminiService.get_gemini_sql_response _ _ _)
    as [[generated_sql|e] asked] eqn:Hg;
    apply sql_response_trace in Hg;
    assert (Hno : Forall (fun eff => is_emit eff = false) asked)
      by (apply (asked_no_emit asked
                   (GeminiService.prompt_for_sql_generation user_question
                      (Main.DB_SCHEMA_DESCRIPTION env))); tauto).
  - destruct (RuleExecutor.execute_rules _ generated_sql tt)
      as [[[is_valid msg]|e] w'] eqn:He; simpl fst; cbv iota.
    + destruct is_valid; simpl negb; cbv iota; [| eauto].
      destruct (Database.execute_sql_query _ generated_sql)
        as [[db_results|e] ran] eqn:Hdbq;
        apply db_trace_no_emit in Hdbq.
      * exists (asked ++ ran)%list. do 2 eexists.
        split; [now rewrite <- app_assoc | now apply Forall_app].
      * destruct (on_exception_emits sid e) as [c ->].
        exists (asked ++ ran)%list. do 2 eexists.
        split; [now rewrite <- app_assoc | now apply Forall_app].
    + destruct (on_exception_emits sid (OtherError e)) as [c ->]. eauto.
  - destruct (on_exception_emits sid e) as [c ->]. eauto.
Qed.

(** X16. Every client message gets exactly one reply: the effects of the
    handler end with one [Emit] to the sender's room, and nothing before
    it is an [Emit]. *)
Theorem handler_replies_once
    {genai : GeminiService.Genai} {sqlalchemy : Database.SqlAlchemy}
    (env : Main.Env) (sid message : string) :
  exists pre event content,
    Main.handle_client_message env sid message
    = (pre ++ [Emit event content sid])%list
    /\ Forall (fun eff => is_emit eff = false) pre.
Proof.
  unfold Main.handle_client_message.
  destruct (PyStr.startswith "/sql" _).
  - destruct (Main.engine env).
    + apply sql_branch_replies_once.
    + exists [], "error", "Database not connected. Cannot execute SQL.".
      split; [reflexivity | constructor].
  - destruct (PyStr.startswith "/ai" _); apply chat_branch_replies_once.
Qed.

(** X17. A generated statement that holds a forbidden keyword never
    reaches the database: when the cleaned reply of the model contains,
    in any letter case, one of the nine patterns, the handler's effects
    are the request to the model and one [error] event whose text is the
    refusal followed by the keyword rule's message. *)
Theorem handler_refuses_forbidden_reply
    {genai : GeminiService.Genai} {sqlalchemy : Database.SqlAlchemy}
    (env : Main.Env) (sid message text : string)
    (eng : Database.Engine) (session : GeminiService.Session) :
  PyStr.startswith "/sql" (PyStr.strip (PyStr.lower message)) = true ->
  Main.engine env = Some eng ->
  GeminiService._gemini_chat_sql_session (Main.gemini env) = Some session ->
  GeminiService.send_message_async session
    (GeminiService.prompt_for_sql_generation
       (PyStr.strip (PySlice.drop 4 message))
       (Main.DB_SCHEMA_DESCRIPTION env))
  = Returns text ->
  (exists k,
      In k ["insert "; "update "; "delete "; "drop "; "alter ";
            "truncate "; "create "; "exec "; "xp_"]
      /\ PyStr.substring_of k
           (PyStr.lower (GeminiService.clean_markdown (PyStr.strip text)))) ->
  Main.handle_client_message env sid message
  = [SendSql
       (GeminiService.prompt_for_sql_generation
          (PyStr.strip (PySlice.drop 4 message))
          (Main.DB_SCHEMA_DESCRIPTION env));
     Emit "error"
       "Dangerous SQL. Cannot execute SQL.Forbidden SQL keywords detected. Only SELECT queries are allowed."
       sid].
Proof.
  intros Hcmd Heng Hsession Hsend Hkw.
  unfold Main.handle_client_message. rewrite Hcmd, Heng.
  unfold Main.sql_branch, GeminiService.get_gemini_sql_response.
  rewrite Hsession, Hsend.
  assert (Hfail :
            ForbiddenKeywordsRule.validate
              (GeminiService.clean_markdown (PyStr.strip text))
            = Ok (false, ForbiddenKeywordsRule.message)).
  { apply forbidden_validate_fail_iff.
    now rewrite clean_markdown_trimmed. }
  cbn [map Main.rules RuleExecutor.execute_rules].
  unfold RuleExecutor.builtin at 1, RuleExecutor.pure_rule.
  rewrite Hfail. reflexivity.
Qed.

(** The sample model answers with a DROP in a fence. *)
Lemma handler_refuses_forbidden_reply_witness :
  Main.handle_client_message
    (ServiceSamples.env
       (fun _ => Returns ("```sql" ++ PySlice.nl ++ "DROP TABLE positions;"
                          ++ PySlice.nl ++ "```"))
       (fun _ => Returns tt))
    "room1" "/SQL remove the positions"
  = [SendSql
       (GeminiService.prompt_for_sql_generation "remove the positions"
          ServiceSamples.schema);
     Emit "error"
       "Dangerous SQL. Cannot execute SQL.Forbidden SQL keywords detected. Only SELECT queries are allowed."
       "room1"].
Proof.
  apply (handler_refuses_forbidden_reply
           (ServiceSamples.env
              (fun _ => Returns ("```sql" ++ PySlice.nl
                                 ++ "DROP TABLE positions;"
                                 ++ PySlice.nl ++ "```"))
              (fun _ => Returns tt))
           "room1" "/SQL remove the positions"
           ("```sql" ++ PySlice.nl ++ "DROP TABLE positions;"
            ++ PySlice.nl ++ "```") tt tt);
    try reflexivity.
  exists "drop ". split; [simpl; tauto |].
  exists EmptyString, "table positions;". reflexivity.
Defined.

(** X18. Without chat sessions the handler calls nothing and answers
    every message with one [error] event: the no-database text for an SQL
    request when no engine exists, the session-not-available text for an
    SQL request otherwise, and the model-not-available text for any other
    message. *)
Theorem handler_without_model
    {genai : GeminiService.Genai} {sqlalchemy : Database.SqlAlchemy}
    (env : Main.Env) (sid message : string) :
  GeminiService._gemini_chat_sql_session (Main.gemini env) = None ->
  GeminiService._gemini_chat_general_session (Main.gemini env) = None ->
  (PyStr.startswith "/sql" (PyStr.strip (PyStr.lower message)) = true ->
   Main.engine env = None ->
   Main.handle_client_message env sid message
   = [Emit "error" "Database not connected. Cannot execute SQL." sid])
  /\ (PyStr.startswith "/sql" (PyStr.strip (PyStr.lower message)) = true ->
      Main.engine env <> None ->
      Main.handle_client_message env sid message
      = [Emit "error"
           "Error: Gemini SQL chat session not available. Ensure model was initialized."
           sid])
  /\ (PyStr.startswith "/sql" (PyStr.strip (PyStr.lower message)) = false ->
      Main.handle_client_message env sid message
      = [Emit "error"
           "Sorry, Gemini model is not available for chat. Ensure it was initialized."
           sid]).
Proof.
  intros Hsql Hchat.
  unfold Main.handle_client_message, Main.sql_branch, Main.chat_branch,
    GeminiService.get_gemini_sql_response,
    GeminiService.get_gemini_chat_response.
  rewrite Hsql, Hchat.
  split; [| split].
  - intros -> ->. reflexivity.
  - intros -> Heng. destruct (Main.engine env); [reflexivity | congruence].
  - intros ->. destruct (PyStr.startswith "/ai" _); reflexivity.
Qed.

(** After an initialization without key: an SQL request with and without
    an engine, an [/ai] request and a plain message, each answered by its
    own error text. *)
Lemma handler_without_model_witness :
  Main.handle_client_message
    (@Main.Build_Env
       (ServiceSamples.genai (fun _ => Returns "hello"))
       (ServiceSamples.sqlalchemy (fun _ => Returns tt))
       Samples.parse None ServiceSamples.schema
       (snd (GeminiService.initialize_gemini_model
               GeminiService.unloaded None)))
    "room1" "/sql how many clients"
  = [Emit "error" "Database not connected. Cannot execute SQL." "room1"]
  /\ Main.handle_client_message
       (@Main.Build_Env
          (ServiceSamples.genai (fun _ => Returns "hello"))
          (ServiceSamples.sqlalchemy (fun _ => Returns tt))
          Samples.parse (Some tt) ServiceSamples.schema
          (snd (GeminiService.initialize_gemini_model
                  GeminiService.unloaded None)))
       "room1" "/sql how many clients"
     = [Emit "error"
          "Error: Gemini SQL chat session not available. Ensure model was initialized."
          "room1"]
  /\ Main.handle_client_message
       (@Main.Build_Env
          (ServiceSamples.genai (fun _ => Returns "hello"))
          (ServiceSamples.sqlalchemy (fun _ => Returns tt))
          Samples.parse (Some tt) ServiceSamples.schema
          (snd (GeminiService.initialize_gemini_model
                  GeminiService.unloaded None)))
       "room1" "/ai tell me a joke"
     = [Emit "error"
          "Sorry, Gemini model is not available for chat. Ensure it was initialized."
          "room1"]
  /\ Main.handle_client_message
       (@Main.Build_Env
          (ServiceSamples.genai (fun _ => Returns "hello"))
          (ServiceSamples.sqlalchemy (fun _ => Returns tt))
          Samples.parse None ServiceSamples.schema
          (snd (GeminiService.initialize_gemini_model
                  GeminiService.unloaded None)))
       "room1" "good morning"
     = [Emit "error"
          "Sorry, Gemini model is not available for chat. Ensure it was initialized."
          "room1"].
Proof.
  split; [| split; [| split]].
  - apply (proj1 (handler_without_model
                    (@Main.Build_Env
                       (ServiceSamples.genai (fun _ => Returns "hello"))
                       (ServiceSamples.sqlalchemy (fun _ => Returns tt))
                       Samples.parse None ServiceSamples.schema
                       (snd (GeminiService.initialize_gemini_model
                               GeminiService.unloaded None)))
                    "room1" "/sql how many clients" eq_refl eq_refl));
      reflexivity.
  - apply (proj1 (proj2 (handler_without_model
                    (@Main.Build_Env
                       (ServiceSamples.genai (fun _ => Returns "hello"))
                       (ServiceSamples.sqlalchemy (fun _ => Returns tt))
                       Samples.parse (Some tt) ServiceSamples.schema
                       (snd (GeminiService.initialize_gemini_model
                               GeminiService.unloaded None)))
                    "room1" "/sql how many clients" eq_refl eq_refl)));
      [reflexivity | discriminate].
  - apply (proj2 (proj2 (handler_without_model
                    (@Main.Build_Env
                       (ServiceSamples.genai (fun _ => Returns "hello"))
                       (ServiceSamples.sqlalchemy (fun _ => Returns tt))
                       Samples.parse (Some tt) ServiceSamples.schema
                       (snd (GeminiService.initialize_gemini_model
                               GeminiService.unloaded None)))
                    "room1" "/ai tell me a joke" eq_refl eq_refl)));
      reflexivity.
  - apply (proj2 (proj2 (handler_without_model
                    (@Main.Build_Env
                       (ServiceSamples.genai (fun _ => Returns "hello"))
                       (ServiceSamples.sqlalchemy (fun _ => Returns tt))
                       Samples.parse None ServiceSamples.schema
                       (snd (GeminiService.initialize_gemini_model
                               GeminiService.unloaded None)))
                    "room1" "good morning" eq_refl eq_refl)));
      reflexivity.
Defined.

(** X19. A failure of the language model, whatever its kind, reaches the
    client as the could-not-generate error and stops the request: the
    handler's effects are the request to the model and that one [error]
    event, so nothing is validated or run. *)
Theorem handler_model_failure
    {genai : GeminiService.Genai} {sqlalchemy : Database.SqlAlchemy}
    (env : Main.Env) (sid message : string)
    (eng : Database.Engine) (session : GeminiService.Session) (e : Exn) :
  PyStr.startswith "/sql" (PyStr.strip (PyStr.lower message)) = true ->
  Main.engine env = Some eng ->
  GeminiService._gemini_chat_sql_session (Main.gemini env) = Some session ->
  GeminiService.send_message_async session
    (GeminiService.prompt_for_sql_generation
       (PyStr.strip (PySlice.drop 4 message))
       (Main.DB_SCHEMA_DESCRIPTION env))
  = Raises e ->
  Main.handle_client_message env sid message
  = [SendSql
       (GeminiService.prompt_for_sql_generation
          (PyStr.strip (PySlice.drop 4 message))
          (Main.DB_SCHEMA_DESCRIPTION env));
     Emit "error"
       ("Error: Could not generate SQL query: " ++ exn_str e
        ++ ". Please try rephrasing your question or check Gemini API setup.")
       sid].
Proof.
  intros Hcmd Heng Hsession Hsend.
  unfold Main.handle_client_message. rewrite Hcmd, Heng.
  unfold Main.sql_branch, GeminiService.get_gemini_sql_response.
  rewrite Hsession, Hsend. reflexivity.
Qed.

(** The sample model times out. *)
Lemma handler_model_failure_witness :
  Main.handle_client_message
    (ServiceSamples.env (fun _ => Raises (OtherError "timed out"))
       (fun _ => Returns tt))
    "room1" "/sql how many clients"
  = [SendSql
       (GeminiService.prompt_for_sql_generation "how many clients"
          ServiceSamples.schema);
     Emit "error"
       "Error: Could not generate SQL query: timed out. Please try rephrasing your question or check Gemini API setup."
       "room1"].
Proof.
  apply (handler_model_failure
           (ServiceSamples.env (fun _ => Raises (OtherError "timed out"))
              (fun _ => Returns tt))
           "room1" "/sql how many clients" tt tt (OtherError "timed out"));
    reflexivity.
Defined.

Lemma strip_keeps_command (cmd rest : string) :
  PyStr.lower cmd = "/sql" ->
  PyStr.startswith "/sql" (PyStr.strip (PyStr.lower (cmd ++ rest))) = true.
Proof.
  intros H. rewrite StripFacts.lower_app, H.
  unfold PyStr.strip, PyStr.strip_by.
  change (PyStr.lstrip_by PyStr.isspace ("/sql" ++ PyStr.lower rest))
    with ("/sql" ++ PyStr.lower rest).
  change ("/sql" ++ PyStr.lower rest)
    with (String "/" (String "s" (String "q" (String "l" (PyStr.lower rest))))).
  rewrite !StripFacts.rstrip_cons_keep by reflexivity.
  reflexivity.
Qed.

(** X20. A message that begins with [/sql] in any letter case is an SQL
    request about the trimmed rest of the message: with an engine and an
    SQL session, the first effect of the handler is the prompt built from
    the schema and that rest. *)
Theorem handler_sql_command_question
    {genai : GeminiService.Genai} {sqlalchemy : Database.SqlAlchemy}
    (env : Main.Env) (sid cmd rest : string)
    (eng : Database.Engine) (session : GeminiService.Session) :
  PyStr.lower cmd = "/sql" ->
  Main.engine env = Some eng ->
  GeminiService._gemini_chat_sql_session (Main.gemini env) = Some session ->
  exists tail,
    Main.handle_client_message env sid (cmd ++ rest)
    = SendSql
        (GeminiService.prompt_for_sql_generation (PyStr.strip rest)
           (Main.DB_SCHEMA_DESCRIPTION env))
      :: tail.
Proof.
  intros Hcmd Heng Hsession.
  unfold Main.handle_client_message.
  rewrite (strip_keeps_command cmd rest Hcmd), Heng.
  assert (Hlen : String.length cmd = 4).
  { rewrite <- SliceFacts.length_lower, Hcmd. reflexivity. }
  rewrite <- Hlen, SliceFacts.drop_app.
  unfold Main.sql_branch, GeminiService.get_gemini_sql_response.
  rewrite Hsession.
  destruct (GeminiService.send_message_async session _) as [text|e];
    [| eexists; reflexivity].
  destruct (fst (RuleExecutor.execute_rules _ _ tt)) as [[is_valid msg]|e];
    [| eexists; reflexivity].
  destruct (negb is_valid); [eexists; reflexivity |].
  destruct (Database.execute_sql_query _ _) as [[d|e] ran];
    eexists; reflexivity.
Qed.

(** [/Sql] followed by a padded question. *)
Lemma handler_sql_command_question_witness :
  exists tail,
    Main.handle_client_message
      (ServiceSamples.env (fun _ => Returns Samples.sql_one)
         (fun _ => Returns tt))
      "room1" ("/Sql" ++ "   how many clients  ")
    = SendSql
        (GeminiService.prompt_for_sql_generation "how many clients"
           ServiceSamples.schema)
      :: tail.
Proof.
  apply (handler_sql_command_question
           (ServiceSamples.env (fun _ => Returns Samples.sql_one)
              (fun _ => Returns tt))
           "room1" "/Sql" "   how many clients  " tt tt); reflexivity.
Defined.

(* ------------------------------------------------------------------ *)
(** * The table rule and the name it compares *)

Module QuoteFacts.
Import PyStr.

Lemma rstrip_free (p : ascii -> bool) (s : string) :
  free_of p s = true -> rstrip_by p s = s.
Proof.
  induction s as [|c s IH]; [reflexivity |].
  cbn [free_of]. intros H. apply andb_true_iff in H. destruct H as [Hc Hs].
  apply negb_true_iff in Hc.
  rewrite (StripFacts.rstrip_cons_keep p c s Hc). now rewrite IH.
Qed.

Lemma lstrip_free (p : ascii -> bool) (s : string) :
  free_of p s = true -> lstrip_by p s = s.
Proof.
  destruct s as [|c s]; [reflexivity |].
  cbn [free_of]. intros H. apply andb_true_iff in H. destruct H as [Hc _].
  apply negb_true_iff in Hc. simpl. now rewrite Hc.
Qed.

(** A string without characters of [p] is left as it is. *)
Lemma strip_free (p : ascii -> bool) (s : string) :
  free_of p s = true -> strip_by p s = s.
Proof.
  intros H. unfold strip_by. rewrite (lstrip_free p s H).
  now apply rstrip_free.
Qed.

Lemma rstrip_snoc (p : ascii -> bool) (q : ascii) (x : string) :
  p q = true ->
  rstrip_by p (x ++ String q EmptyString) = rstrip_by p x.
Proof.
  intros Hq. induction x as [|c x IH]; simpl.
  - now rewrite Hq.
  - now rewrite IH.
Qed.

(** Stripping the quote character gives what stands between the quotes. *)
Lemma strip_quoted (p : ascii -> bool) (q : ascii) (s : string) :
  p q = true -> free_of p s = true -> strip_by p (quoted q s) = s.
Proof.
  intros Hq Hs. unfold strip_by, quoted. cbn [lstrip_by]. rewrite Hq.
  destruct s as [|c s].
  - simpl. now rewrite Hq.
  - assert (Hc : p c = false).
    { cbn [free_of] in Hs. apply andb_true_iff in Hs.
      destruct Hs as [Hc _]. now apply negb_true_iff in Hc. }
    cbn [append lstrip_by]. rewrite Hc.
    change (String c (s ++ String q EmptyString))
      with (String c s ++ String q EmptyString).
    rewrite (rstrip_snoc p q (String c s) Hq). now apply rstrip_free.
Qed.

(** Stripping another character leaves a quoted string as it is. *)
Lemma strip_other_quote (p : ascii -> bool) (q : ascii) (s : string) :
  p q = false -> strip_by p (quoted q s) = quoted q s.
Proof.
  intros Hq. unfold strip_by, quoted. simpl lstrip_by. rewrite Hq.
  change (String q (s ++ String q EmptyString))
    with (String q s ++ String q EmptyString).
  rewrite StripFacts.rstrip_app_nonempty; simpl; rewrite Hq;
    [reflexivity | discriminate].
Qed.

Lemma delimiter_free_free_of (q : ascii) (s : string) :
  is_delimiter q = true ->
  delimiter_free s = true -> free_of (Ascii.eqb q) s = true.
Proof.
  intros Hq. induction s as [|c s IH]; [reflexivity |].
  cbn [delimiter_free free_of]. intros H. apply andb_true_iff in H.
  destruct H as [Hc Hs]. rewrite (IH Hs), andb_true_r.
  destruct (Ascii.eqb q c) eqn:E; [| reflexivity].
  apply Ascii.eqb_eq in E. subst c. now rewrite Hq in Hc.
Qed.

Lemma unquoted_lower_bare (name : string) :
  delimiter_free name = true -> unquoted_lower name = lower name.
Proof.
  intros H. unfold unquoted_lower.
  rewrite (strip_free (Ascii.eqb (ascii_of_nat 34)) name
             (delimiter_free_free_of (ascii_of_nat 34) name eq_refl H)).
  rewrite (strip_free (Ascii.eqb "'") name
             (delimiter_free_free_of "'" name eq_refl H)).
  now rewrite (strip_free (Ascii.eqb "`") name
                 (delimiter_free_free_of "`" name eq_refl H)).
Qed.

Lemma unquoted_lower_quoted (q : ascii) (name : string) :
  In q [ascii_of_nat 34; "'"%char; "`"%char] ->
  delimiter_free name = true ->
  unquoted_lower (quoted q name) = lower name.
Proof.
  intros Hq H. unfold unquoted_lower.
  pose proof (delimiter_free_free_of (ascii_of_nat 34) name eq_refl H) as F1.
  pose proof (delimiter_free_free_of "'" name eq_refl H) as F2.
  pose proof (delimiter_free_free_of "`" name eq_refl H) as F3.
  destruct Hq as [<- | [<- | [<- | []]]].
  - rewrite (strip_quoted (Ascii.eqb (ascii_of_nat 34)) (ascii_of_nat 34)
               name eq_refl F1).
    now rewrite (strip_free (Ascii.eqb "'") name F2),
      (strip_free (Ascii.eqb "`") name F3).
  - rewrite (strip_other_quote (Ascii.eqb (ascii_of_nat 34)) "'" name eq_refl).
    rewrite (strip_quoted (Ascii.eqb "'") "'" name eq_refl F2).
    now rewrite (strip_free (Ascii.eqb "`") name F3).
  - rewrite (strip_other_quote (Ascii.eqb (ascii_of_nat 34)) "`" name eq_refl).
    rewrite (strip_other_quote (Ascii.eqb "'") "`" name eq_refl).
    now rewrite (strip_quoted (Ascii.eqb "`") "`" name eq_refl F3).
Qed.

End QuoteFacts.

Lemma table_name_of_unquoted_lower (tok : Token) :
  WhitelistedTablesRule.table_name_of tok = unquoted_lower (normalized tok).
Proof. reflexivity. Qed.

Lemma target_allowed_resolves (allowed : list string) (toks : list Token)
    (i : nat) :
  target_allowed (WhitelistedTablesRule.init allowed) toks i
  <-> target_resolves allowed toks i.
Proof.
  unfold target_allowed, target_resolves.
  split; intros [c [Hc Hin]]; exists c; (split; [exact Hc | exact Hin]).
Qed.

(** C3. On the flattened stream of the first parsed statement, the table
    rule takes, at each keyword token normalized to [FROM] or [JOIN], the
    next token that is not white space, removes the double quotes, single
    quotes or backticks around its normalized text and lower-cases it.  It
    fails at the first such name that is absent from the lower-cased
    allowed names, with the message quoting that name, and it passes
    exactly when every FROM/JOIN keyword has a target whose name is
    allowed.  A name written between two double quotes, two single quotes
    or two backticks is compared as the lower-cased name between them.
    ["SELECT name FROM secret_table"] with [client_info_view] and
    [positions] allowed fails with the message for [secret_table], and so
    does the same query with the table written ["Secret_Table"] in double
    quotes; a backticked [Client_Info_View] passes when
    [CLIENT_INFO_VIEW] is allowed. *)
Theorem whitelisted_tables_validate_spec
    (parse : string -> Result (list Statement)) :
  (forall (allowed : list string) (sql : string) (st : Statement)
          (rest : list Statement),
      parse sql = Ok (st :: rest) ->
      let self := WhitelistedTablesRule.init allowed in
      let toks := flatten st in
      (forall i c,
          from_join_at toks i ->
          candidate_at toks i = Some c ->
          ~ In (unquoted_lower (normalized c)) (map PyStr.lower allowed) ->
          (forall j, j < i -> from_join_at toks j ->
                     target_resolves allowed toks j) ->
          WhitelistedTablesRule.validate parse self sql
          = Ok (false,
                "Access to table/object '"
                ++ unquoted_lower (normalized c)
                ++ "' is not allowed."))
      /\ (WhitelistedTablesRule.validate parse self sql
          = Ok (true, EmptyString)
          <-> forall i, from_join_at toks i ->
                        target_resolves allowed toks i))
  /\ (forall (q : ascii) (name : string),
         In q [ascii_of_nat 34; "'"%char; "`"%char] ->
         delimiter_free name = true ->
         unquoted_lower (quoted q name) = PyStr.lower name
         /\ unquoted_lower name = PyStr.lower name)
  /\ (parse "SELECT name FROM secret_table" = Ok [Samples.stmt_secret] ->
      WhitelistedTablesRule.validate parse
        (WhitelistedTablesRule.init ["client_info_view"; "positions"])
        "SELECT name FROM secret_table"
      = Ok (false, "Access to table/object 'secret_table' is not allowed."))
  /\ (parse QuotedSamples.sql_quoted = Ok [QuotedSamples.stmt_quoted] ->
      WhitelistedTablesRule.validate parse
        (WhitelistedTablesRule.init ["client_info_view"; "positions"])
        QuotedSamples.sql_quoted
      = Ok (false, "Access to table/object 'secret_table' is not allowed."))
  /\ (parse QuotedSamples.sql_backticked
      = Ok [QuotedSamples.stmt_backticked] ->
      WhitelistedTablesRule.validate parse
        (WhitelistedTablesRule.init ["CLIENT_INFO_VIEW"])
        QuotedSamples.sql_backticked
      = Ok (true, EmptyString)).
Proof.
  split; [| split; [| split; [| split]]].
  - intros allowed sql st rest Hp self toks.
    assert (Hleaves : leaves_only toks)
      by (intros x Hx; exact (flatten_no_parenthesis st x Hx)).
    rewrite (whitelist_validate_ok parse self sql _ Hp). fold toks.
    split.
    + intros i c Hfj Hc Hnot Hbefore.
      apply (for_tokens_first_failure self toks toks 0 i);
        [reflexivity | lia | | ].
      * rewrite (body_at_not_allowed self toks i c Hleaves Hfj Hc);
          [reflexivity |].
        rewrite table_name_of_unquoted_lower. exact Hnot.
      * intros k _ Hk. apply body_at_none_iff; [exact Hleaves |].
        intros Hfk. apply target_allowed_resolves. now apply Hbefore.
    + split.
      * intros Hv i Hfj. apply target_allowed_resolves.
        exact (proj1 (body_at_none_iff self toks i Hleaves)
                 (for_tokens_pass_inv self toks toks 0 EmptyString
                    eq_refl Hv i (Nat.le_0_l i))
                 Hfj).
      * intros Hall. apply for_tokens_pass; [reflexivity |].
        intros k _. apply body_at_none_iff; [exact Hleaves |].
        intros Hfk. apply target_allowed_resolves. now apply Hall.
  - intros q name Hq Hfree. split.
    + now apply QuoteFacts.unquoted_lower_quoted.
    + now apply QuoteFacts.unquoted_lower_bare.
  - intros Hp. rewrite (whitelist_validate_ok parse _ _ _ Hp). reflexivity.
  - intros Hp. rewrite (whitelist_validate_ok parse _ _ _ Hp). reflexivity.
  - intros Hp. rewrite (whitelist_validate_ok parse _ _ _ Hp). reflexivity.
Qed.

(** The table rule on the sample parses: the plain and the double-quoted
    capitalized forbidden table are refused under the same name, the
    backticked capitalized view passes, and the general statements give
    the same two verdicts from the tokens' quoted texts. *)
Lemma whitelisted_tables_validate_spec_witness :
  WhitelistedTablesRule.validate QuotedSamples.parse
    (WhitelistedTablesRule.init ["client_info_view"; "positions"])
    "SELECT name FROM secret_table"
  = Ok (false, "Access to table/object 'secret_table' is not allowed.")
  /\ WhitelistedTablesRule.validate QuotedSamples.parse
       (WhitelistedTablesRule.init ["client_info_view"; "positions"])
       QuotedSamples.sql_quoted
     = Ok (false, "Access to table/object 'secret_table' is not allowed.")
  /\ WhitelistedTablesRule.validate QuotedSamples.parse
       (WhitelistedTablesRule.init ["CLIENT_INFO_VIEW"])
       QuotedSamples.sql_backticked
     = Ok (true, EmptyString)
  /\ unquoted_lower (quoted "'" "Positions") = "positions"
  /\ WhitelistedTablesRule.validate QuotedSamples.parse
       (WhitelistedTablesRule.init ["Positions"])
       QuotedSamples.sql_quoted
     = Ok (false,
           "Access to table/object '"
           ++ unquoted_lower (quoted (ascii_of_nat 34) "Secret_Table")
           ++ "' is not allowed.")
  /\ WhitelistedTablesRule.validate QuotedSamples.parse
       (WhitelistedTablesRule.init ["Client_Info_View"])
       QuotedSamples.sql_backticked
     = Ok (true, EmptyString).
Proof.
  pose proof (whitelisted_tables_validate_spec QuotedSamples.parse)
    as (Hgen & Hquote & Hplain & Hquoted & Hback).
  split; [exact (Hplain eq_refl) |].
  split; [exact (Hquoted eq_refl) |].
  split; [exact (Hback eq_refl) |].
  split.
  - exact (proj1 (Hquote "'"%char "Positions"
                    (or_intror (or_introl eq_refl)) eq_refl)).
  - assert (Hfrom : forall i tok,
               nth_error (flatten QuotedSamples.stmt_quoted) i = Some tok ->
               is_keyword tok = true ->
               normalized tok = "FROM" \/ normalized tok = "JOIN" ->
               i = 4).
    { intros i tok Hn Hk Hnorm.
      destruct (Nat.eq_dec i 4) as [-> | Hne]; [reflexivity |]. exfalso.
      do 7 (destruct i as [|i];
            [simpl in Hn; injection Hn as <-;
             first [ discriminate Hk
                   | lia
                   | destruct Hnorm as [Hx | Hx]; discriminate Hx ] |]).
      destruct i; discriminate Hn. }
    assert (Hfrom' : forall i tok,
               nth_error (flatten QuotedSamples.stmt_backticked) i = Some tok ->
               is_keyword tok = true ->
               normalized tok = "FROM" \/ normalized tok = "JOIN" ->
               i = 4).
    { intros i tok Hn Hk Hnorm.
      destruct (Nat.eq_dec i 4) as [-> | Hne]; [reflexivity |]. exfalso.
      do 7 (destruct i as [|i];
            [simpl in Hn; injection Hn as <-;
             first [ discriminate Hk
                   | lia
                   | destruct Hnorm as [Hx | Hx]; discriminate Hx ] |]).
      destruct i; discriminate Hn. }
    split.
    + apply (proj1 (Hgen ["Positions"] QuotedSamples.sql_quoted
                      QuotedSamples.stmt_quoted [] eq_refl)
               4 (Leaf (quoted (ascii_of_nat 34) "Secret_Table") false false
                    (quoted (ascii_of_nat 34) "Secret_Table"))).
      * exists (Samples.kw "FROM" "FROM"). repeat split. now left.
      * reflexivity.
      * simpl. intros [H | []]. discriminate H.
      * intros j Hj [tok [Hn [Hk Hnorm]]].
        rewrite (Hfrom j tok Hn Hk Hnorm) in Hj. lia.
    + apply (proj2 (Hgen ["Client_Info_View"] QuotedSamples.sql_backticked
                      QuotedSamples.stmt_backticked [] eq_refl)).
      intros i [tok [Hn [Hk Hnorm]]].
      rewrite (Hfrom' i tok Hn Hk Hnorm).
      exists (Leaf (quoted "`" "Client_Info_View") false false
                (quoted "`" "Client_Info_View")).
      split; [reflexivity | simpl; now left].
Defined.
